(** * A shallow embedding of [src/app.js]

    The program is a single Node.js request handler: it sets three CORS
    headers, answers pre-flight requests, parses the request URL and
    dispatches on the path to a home page, a health probe, a gated
    command runner ([/cmd]) or a 404.

    The embedding keeps the shape of the source:
    - JavaScript values, truthiness and [||] are modelled directly;
    - the response object [res] is a record that the handler mutates, so
      the handler is written in a small state-and-exception monad;
    - [try { ... } catch (e) { ... }] is the monad's [try_catch];
    - [exec] only registers its callback: the callback runs after the
      handler has returned, outside the [try] block ([serve]);
    - what Node's [exec] does with the child, its output and the two
      options is written out ([run_child]);
    - the two collaborators left open, the WHATWG [URL] constructor and
      the operating system that turns a command into a child, whose
      output reaches [exec] as decoded text, are variables of the
      section. *)

From Stdlib Require Import Ascii QArith Qround.
From stdpp Require Import base strings list gmap.

Local Open Scope Z_scope.
Local Open Scope string_scope.

(** ** JavaScript values *)

(** The double-quote character, for the one message of the source that
    contains it. *)
Definition dquote : string :=
  String (Ascii.Ascii false true false false false true false false) EmptyString.

(** Numbers are rationals (every finite double is one). [VBuiltin] is a
    function or object of the runtime, known by its name. An object
    lists its properties in insertion order, as [JSON.stringify] prints
    them. *)
#[local] Set Warnings "-register-all".
Inductive value : Type :=
| VUndefined
| VNull
| VBool (b : bool)
| VNum (q : Q)
| VStr (s : string)
| VBuiltin (name : string)
| VObj (props : list (string * value)).

(** ToBoolean. Numbers are finite here, so only zero is falsy. *)
Definition truthy (v : value) : bool :=
  match v with
  | VUndefined | VNull => false
  | VBool b => b
  | VNum q => negb (Z.eqb (Qnum q) 0)
  | VStr s => negb (String.eqb s "")
  | VBuiltin _ | VObj _ => true
  end.

(** [a || b] *)
Definition js_or (a b : value) : value := if truthy a then a else b.

(** A property that may be absent reads as [undefined]. *)
Definition of_option (o : option string) : value :=
  match o with
  | Some s => VStr s
  | None => VUndefined
  end.

(** [(x || d)] where [x] is a string or [undefined] and [d] a string:
    the result is again a string. *)
Definition str_or (o : option string) (d : string) : string :=
  match js_or (of_option o) (VStr d) with
  | VStr s => s
  | _ => d
  end.

(** ** Plain objects and their prototype *)

(** An object created by a literal has its own properties and inherits
    those of [Object.prototype]. *)
Record JsObject : Type := {
  own : gmap string value;
  proto : gmap string value
}.

Definition Object_prototype : gmap string value :=
  list_to_map
    [ ("constructor", VBuiltin "Object");
      ("__defineGetter__", VBuiltin "Object.prototype.__defineGetter__");
      ("__defineSetter__", VBuiltin "Object.prototype.__defineSetter__");
      ("hasOwnProperty", VBuiltin "Object.prototype.hasOwnProperty");
      ("__lookupGetter__", VBuiltin "Object.prototype.__lookupGetter__");
      ("__lookupSetter__", VBuiltin "Object.prototype.__lookupSetter__");
      ("isPrototypeOf", VBuiltin "Object.prototype.isPrototypeOf");
      ("propertyIsEnumerable", VBuiltin "Object.prototype.propertyIsEnumerable");
      ("toString", VBuiltin "Object.prototype.toString");
      ("valueOf", VBuiltin "Object.prototype.valueOf");
      ("__proto__", VBuiltin "Object.prototype");
      ("toLocaleString", VBuiltin "Object.prototype.toLocaleString") ].

(** [Object.prototype.hasOwnProperty.call(o, k)] *)
Definition hasOwnProperty (o : JsObject) (k : string) : bool :=
  bool_decide (is_Some (own o !! k)).

(** [k in o] *)
Definition js_in (o : JsObject) (k : string) : bool :=
  hasOwnProperty o k || bool_decide (is_Some (proto o !! k)).

(** [o[k]] *)
Definition get_property (o : JsObject) (k : string) : value :=
  match own o !! k with
  | Some v => v
  | None => default VUndefined (proto o !! k)
  end.

(** ** Configuration (lines 5-17) *)

Definition ALLOWED_COMMANDS : JsObject :=
  {| own := list_to_map
              [ ("uptime", VStr "uptime");
                ("disk", VStr "df -h");
                ("memory", VStr "free -m") ];
     proto := Object_prototype |}.

Section Config.

(** [process.env] *)
Variable env : gmap string string.

Definition PORT : value := js_or (of_option (env !! "PORT")) (VNum 80).

Definition REQUIRE_API_KEY : bool := truthy (of_option (env !! "ADMIN_API_KEY")).

Definition ADMIN_API_KEY : string := str_or (env !! "ADMIN_API_KEY") "".

End Config.

(** ** The response object [res] *)

Definition lower_ascii (c : Ascii.ascii) : Ascii.ascii :=
  let n := Ascii.N_of_ascii c in
  if (N.leb 65 n && N.leb n 90)%bool then Ascii.ascii_of_N (n + 32) else c.

Fixpoint toLowerCase (s : string) : string :=
  match s with
  | EmptyString => EmptyString
  | String c s' => String (lower_ascii c) (toLowerCase s')
  end.

(** The four values the home page template of lines 44-80 interpolates.
    The page itself is fixed text around them and is kept symbolic. *)
Record HomePage : Type := {
  page_version : string;
  page_port : value;
  page_platform : string;
  page_uptime : Z
}.

(** What was passed to [res.end]. [Json v] is the text
    [JSON.stringify(v, null, 2)]. *)
Inductive Body : Type :=
| NoBody
| Text (s : string)
| Html (p : HomePage)
| Json (v : value).

Record ServerResponse : Type := {
  statusCode : Z;
  getHeaders : list (string * string);
  body : Body;
  finished : bool
}.

Definition fresh_response : ServerResponse :=
  {| statusCode := 200; getHeaders := []; body := NoBody; finished := false |}.

(** Header names are compared without regard to case; a header set twice
    keeps its place and takes the new name and value. *)
Fixpoint set_header (name val : string) (hs : list (string * string))
  : list (string * string) :=
  match hs with
  | [] => [(name, val)]
  | (n, v) :: rest =>
      if String.eqb (toLowerCase n) (toLowerCase name)
      then (name, val) :: rest
      else (n, v) :: set_header name val rest
  end.

Definition setHeader (name val : string) (r : ServerResponse) : ServerResponse :=
  {| statusCode := statusCode r;
     getHeaders := set_header name val (getHeaders r);
     body := body r;
     finished := finished r |}.

Definition writeHead (code : Z) (hs : list (string * string)) (r : ServerResponse)
  : ServerResponse :=
  {| statusCode := code;
     getHeaders := fold_left (fun acc h => set_header (fst h) (snd h) acc) hs (getHeaders r);
     body := body r;
     finished := finished r |}.

Definition end_ (data : Body) (r : ServerResponse) : ServerResponse :=
  {| statusCode := statusCode r;
     getHeaders := getHeaders r;
     body := data;
     finished := true |}.

(** [sendJson] (lines 19-22) *)
Definition sendJson (code : Z) (obj : value) (r : ServerResponse) : ServerResponse :=
  end_ (Json obj) (writeHead code [("Content-Type", "application/json")] r).

(** [JSON.stringify] leaves out the properties whose value is
    [undefined] or a function; these are the fields of the text. *)
Definition serialisable (v : value) : bool :=
  match v with
  | VUndefined | VBuiltin _ => false
  | _ => true
  end.

Definition json_fields (v : value) : list (string * value) :=
  match v with
  | VObj props => filter (fun p => serialisable (snd p) = true) props
  | _ => []
  end.

Definition field_names (b : Body) : list string :=
  match b with
  | Json v => map fst (json_fields v)
  | _ => []
  end.

Fixpoint assoc (k : string) (l : list (string * value)) : option value :=
  match l with
  | [] => None
  | (k', v) :: rest => if String.eqb k' k then Some v else assoc k rest
  end.

Definition field (k : string) (b : Body) : option value :=
  match b with
  | Json v => assoc k (json_fields v)
  | _ => None
  end.

(** ** The process runner: [child_process.exec]

    [exec] is Node's; the source passes it a command, the two options
    [timeout] and [maxBuffer], and a callback. What follows is the part
    of its contract the handler relies on, after [lib/child_process.js]:
    output is collected per stream, each stream has its own byte counter
    checked against [maxBuffer], a stream that goes over has its last
    chunk cut and the child is killed, a timer kills the child with
    [SIGTERM] after [timeout] milliseconds, and the callback receives an
    error unless the child exited with status 0 on its own.

    [exec] reads both streams as UTF-8 text: its listeners get decoded
    strings, not the child's bytes. A chunk here is such a string, as
    the stream delivers it. A string stands for a JavaScript string by
    its UTF-8 encoding (a surrogate on its own, which only cutting can
    produce, by its three bytes in the same scheme), so that
    [Buffer.byteLength] is the length of the string, while
    [String.prototype.slice] counts UTF-16 units.
    A killed child is taken to die at once. *)

Record ExecOptions : Type := {
  timeout : Z;
  maxBuffer : Z
}.

(** The error object handed to the callback. *)
Record ExecError : Type := {
  message : string;
  code : value;
  signal : value;
  killed : value
}.

Definition ExecResult : Type := option ExecError * string * string.

Inductive Stream : Type := Stdout | Stderr.

(** One [data] event of a stream: when it comes, on which stream, and
    the text it carries. The text is what the stream's decoder made of
    the child's bytes, so bytes that are no UTF-8 have already become
    U+FFFD and no character is split between two chunks. *)
Record Chunk : Type := {
  at_ms : Z;
  stream : Stream;
  data : string
}.

Inductive Ending : Type :=
| Exited (status : N)
| Signalled (sig : string).

(** What the runner sees of a spawned child that is left alone: it
    fails to start, or its output arrives in chunks of decoded text and
    it ends at some time. *)
Inductive Process : Type :=
| SpawnFailed (syscode msg : string)
| Ran (chunks : list Chunk) (ends_at : Z) (ending : Ending).

Record Buffers : Type := {
  stdout_buf : string;
  stdoutLen : Z;
  stderr_buf : string;
  stderrLen : Z
}.

Definition no_output : Buffers :=
  {| stdout_buf := ""; stdoutLen := 0; stderr_buf := ""; stderrLen := 0 |}.

Inductive Stop : Type :=
| TimedOut
| Overflow (s : Stream).

Definition timer_fired (opts : ExecOptions) (t : Z) : bool :=
  (Z.ltb 0 (timeout opts) && Z.leb (timeout opts) t)%bool.

(** The bytes of the character a lead byte starts. *)
Definition char_bytes (lead : Ascii.ascii) : nat :=
  let n := Ascii.N_of_ascii lead in
  if N.ltb n 192 then 1%nat
  else if N.ltb n 224 then 2%nat
  else if N.ltb n 240 then 3%nat
  else 4%nat.

(** The first half of the surrogate pair of a four-byte character, from
    its first three bytes. *)
Definition high_surrogate (b0 b1 b2 : Ascii.ascii) : string :=
  let top := (N.modulo (Ascii.N_of_ascii b0) 8 * 256
              + N.modulo (Ascii.N_of_ascii b1) 64 * 4
              + N.div (N.modulo (Ascii.N_of_ascii b2) 64) 16)%N in
  let hi := (55296 + (top - 64))%N in
  String (Ascii.ascii_of_N 237)
    (String (Ascii.ascii_of_N (128 + N.modulo (N.div hi 64) 64))
       (String (Ascii.ascii_of_N (128 + N.modulo hi 64)) EmptyString)).

(** The first [n] UTF-16 units of a string; [pending] bytes of the
    character under way are still to be copied. A character outside the
    basic plane is two units: cut between them, its first half is
    left. *)
Fixpoint take_units (n pending : nat) (s : string) : string :=
  match s with
  | EmptyString => EmptyString
  | String c rest =>
      match pending with
      | S k => String c (take_units n k rest)
      | O =>
          match n with
          | O => EmptyString
          | S n' =>
              match char_bytes c, n' with
              | 4%nat, O =>
                  match rest with
                  | String b1 (String b2 _) => high_surrogate c b1 b2
                  | _ => EmptyString
                  end
              | 4%nat, S n'' => String c (take_units n'' 3 rest)
              | len, _ => String c (take_units n' (len - 1) rest)
              end
          end
      end
  end.

(** [s.slice(0, n)] *)
Definition slice (n : nat) (s : string) : string := take_units n 0 s.

(** [Buffer.byteLength(s, 'utf8')] *)
Definition byteLength (s : string) : Z := Z.of_nat (String.length s).

(** The two [data] listeners, in arrival order, until the timer fires or
    a stream overflows. *)
Fixpoint collect (opts : ExecOptions) (chunks : list Chunk) (b : Buffers)
  : Buffers * option Stop :=
  match chunks with
  | [] => (b, None)
  | c :: rest =>
      if timer_fired opts (at_ms c) then (b, Some TimedOut)
      else
        match stream c with
        | Stdout =>
            let total := stdoutLen b + byteLength (data c) in
            if Z.ltb (maxBuffer opts) total then
              ({| stdout_buf := stdout_buf b +:+ slice (Z.to_nat (maxBuffer opts - stdoutLen b)) (data c);
                  stdoutLen := total; stderr_buf := stderr_buf b; stderrLen := stderrLen b |},
               Some (Overflow Stdout))
            else
              collect opts rest
                {| stdout_buf := stdout_buf b +:+ data c; stdoutLen := total;
                   stderr_buf := stderr_buf b; stderrLen := stderrLen b |}
        | Stderr =>
            let total := stderrLen b + byteLength (data c) in
            if Z.ltb (maxBuffer opts) total then
              ({| stdout_buf := stdout_buf b; stdoutLen := stdoutLen b;
                  stderr_buf := stderr_buf b +:+ slice (Z.to_nat (maxBuffer opts - stderrLen b)) (data c);
                  stderrLen := total |},
               Some (Overflow Stderr))
            else
              collect opts rest
                {| stdout_buf := stdout_buf b; stdoutLen := stdoutLen b;
                   stderr_buf := stderr_buf b +:+ data c; stderrLen := total |}
        end
  end.

Definition newline : string :=
  String (Ascii.Ascii false true false true false false false false) EmptyString.

Definition stream_name (s : Stream) : string :=
  match s with
  | Stdout => "stdout"
  | Stderr => "stderr"
  end.

Definition command_failed (cmd : string) (b : Buffers) (c sg k : value) : ExecError :=
  {| message := "Command failed: " +:+ cmd +:+ newline +:+ stderr_buf b;
     code := c; signal := sg; killed := k |}.

(** The arguments of the callback. *)
Definition run_child (cmd : string) (opts : ExecOptions) (p : Process) : ExecResult :=
  match p with
  | SpawnFailed syscode msg =>
      (Some {| message := msg; code := VStr syscode;
               signal := VUndefined; killed := VUndefined |}, "", "")
  | Ran chunks ends_at ending =>
      match collect opts chunks no_output with
      | (b, Some (Overflow s)) =>
          (Some {| message := stream_name s +:+ " maxBuffer length exceeded";
                   code := VStr "ERR_CHILD_PROCESS_STDIO_MAXBUFFER";
                   signal := VUndefined; killed := VUndefined |},
           stdout_buf b, stderr_buf b)
      | (b, Some TimedOut) =>
          (Some (command_failed cmd b VNull (VStr "SIGTERM") (VBool true)), stdout_buf b, stderr_buf b)
      | (b, None) =>
          if timer_fired opts ends_at then
            (Some (command_failed cmd b VNull (VStr "SIGTERM") (VBool true)), stdout_buf b, stderr_buf b)
          else
            match ending with
            | Exited 0%N => (None, stdout_buf b, stderr_buf b)
            | Exited st =>
                (Some (command_failed cmd b (VNum (inject_Z (Z.of_N st))) VNull (VBool false)),
                 stdout_buf b, stderr_buf b)
            | Signalled sg =>
                (Some (command_failed cmd b VNull (VStr sg) (VBool false)), stdout_buf b, stderr_buf b)
            end
      end
  end.


(** ** Requests and URLs *)

Record IncomingMessage : Type := {
  method : string;
  url : string;
  headers : gmap string string
}.

(** The two members of a parsed [URL] the handler reads. The query is an
    ordered list of decoded name/value pairs. *)
Record URL : Type := {
  pathname : string;
  searchParams : list (string * string)
}.

(** [searchParams.get(name)]: the first value of that name, else [null]. *)
Fixpoint searchParams_get (name : string) (params : list (string * string))
  : option string :=
  match params with
  | [] => None
  | (n, v) :: rest => if String.eqb n name then Some v else searchParams_get name rest
  end.

(** [process.version], [process.platform], [process.uptime()] and
    [new Date().toISOString()] at the time of the request. *)
Record Runtime : Type := {
  version : string;
  platform : string;
  uptime : Q;
  now_iso : string
}.

(** ** Statements that mutate [res] and may throw *)

Record Exn : Type := {
  exn_name : string;
  exn_message : string
}.

Inductive completion (A : Type) : Type :=
| Normal (a : A)
| Throw (e : Exn).
Arguments Normal {A} a.
Arguments Throw {A} e.

(** One call of [exec]: what was passed, and the child the operating
    system gave back (or the exception [spawn] raised). *)
Record ExecCall : Type := {
  call_command : string;
  call_options : ExecOptions;
  call_child : completion Process;
  call_callback : ExecResult -> ServerResponse -> ServerResponse
}.

Record World : Type := {
  res : ServerResponse;
  exec_calls : list ExecCall;
  console : list (string * Exn)
}.

Definition M (A : Type) : Type := World -> completion A * World.

#[export] Instance M_ret : MRet M := fun A a w => (Normal a, w).

#[export] Instance M_bind : MBind M := fun A B f m w =>
  match m w with
  | (Normal a, w') => f a w'
  | (Throw e, w') => (Throw e, w')
  end.

Definition throw {A : Type} (e : Exn) : M A := fun w => (Throw e, w).

Definition lift {A : Type} (c : completion A) : M A := fun w => (c, w).

Definition try_catch (body : M unit) (handle : Exn -> M unit) : M unit := fun w =>
  match body w with
  | (Throw e, w') => handle e w'
  | r => r
  end.

Definition on_res (f : ServerResponse -> ServerResponse) : M unit := fun w =>
  (Normal tt, {| res := f (res w); exec_calls := exec_calls w; console := console w |}).

Definition console_error (label : string) (e : Exn) : M unit := fun w =>
  (Normal tt, {| res := res w; exec_calls := exec_calls w;
                 console := console w ++ [(label, e)] |}).

Definition initial_world : World :=
  {| res := fresh_response; exec_calls := []; console := [] |}.

(** The three CORS headers, and the response object once they are set
    (lines 26-28). *)
Definition cors_headers : list (string * string) :=
  [ ("Access-Control-Allow-Origin", "*");
    ("Access-Control-Allow-Methods", "GET, POST, OPTIONS");
    ("Access-Control-Allow-Headers", "Content-Type, x-api-key") ].

(** The world in which nothing was spawned or logged and [r] was sent. *)
Definition answered (r : ServerResponse) : World :=
  {| res := r; exec_calls := []; console := [] |}.

Definition cors_response : ServerResponse :=
  {| statusCode := 200; getHeaders := cors_headers; body := NoBody; finished := false |}.

(** ** The request handler (lines 24-161) *)

Section Server.

(** [process.env] and the runtime. *)
Variable env : gmap string string.
Variable node : Runtime.

(** [new URL(input, base)]: a parsed URL, or a [TypeError]. *)
Variable new_URL : string -> string -> completion URL.

(** The operating system: the child a shell command turns into, or the
    exception [spawn] raises on the spot. *)
Variable spawn : string -> completion Process.

(** [exec(command, options, callback)] checks its argument, spawns the
    child and returns; the callback is kept for later. *)
Definition exec (command : value) (opts : ExecOptions)
    (callback : ExecResult -> ServerResponse -> ServerResponse) : M unit :=
  match command with
  | VStr cmd => fun w =>
      let child := spawn cmd in
      let w' := {| res := res w;
                   exec_calls := exec_calls w ++
                     [{| call_command := cmd; call_options := opts;
                         call_child := child; call_callback := callback |}];
                   console := console w |} in
      match child with
      | Normal _ => (Normal tt, w')
      | Throw e => (Throw e, w')
      end
  | _ => throw {| exn_name := "TypeError"; exn_message := "ERR_INVALID_ARG_TYPE" |}
  end.

(** [s ? s.toString() : ''] for a captured stream. *)
Definition stream_text (s : string) : string :=
  if truthy (VStr s) then s else "".

(** The callback given to [exec] (lines 126-149). *)
Definition exec_callback (commandName : string) (r : ExecResult)
  : ServerResponse -> ServerResponse :=
  let '(err, stdout, stderr) := r in
  match err with
  | Some e =>
      let code := js_or (code e) VNull in
      let signal := js_or (signal e) VNull in
      sendJson 200
        (VObj [ ("command", VStr commandName);
                ("allowed", VBool true);
                ("error", VStr (message e));
                ("exitCode", code);
                ("signal", signal);
                ("stdout", VStr (stream_text stdout));
                ("stderr", VStr (stream_text stderr)) ])
  | None =>
      sendJson 200
        (VObj [ ("command", VStr commandName);
                ("allowed", VBool true);
                ("stdout", VStr (stream_text stdout));
                ("stderr", VStr (stream_text stderr)) ])
  end.

Definition exec_options : ExecOptions :=
  {| timeout := 5000; maxBuffer := 1024 * 1024 |}.

Definition error_body (msg : string) : value := VObj [("error", VStr msg)].

(** The [x-api-key] test of line 105. *)
Definition key_rejected (req : IncomingMessage) : bool :=
  let provided := str_or (headers req !! "x-api-key") "" in
  negb (truthy (VStr provided)) || negb (String.eqb provided (ADMIN_API_KEY env)).

(** Lines 117-151: the command name is known and not empty. *)
Definition run_named (commandName : string) : M unit :=
  if negb (hasOwnProperty ALLOWED_COMMANDS commandName) then
    on_res (sendJson 403 (error_body "Command not allowed"))
  else
    let shellCommand := get_property ALLOWED_COMMANDS commandName in
    exec shellCommand exec_options (exec_callback commandName).

Definition missing_command : M unit :=
  on_res (sendJson 400
    (error_body ("Missing " +:+ dquote +:+ "command" +:+ dquote +:+ " query parameter"))).

(** Lines 111-151: the method and the key have been accepted. *)
Definition run_command (fullUrl : URL) : M unit :=
  match searchParams_get "command" (searchParams fullUrl) with
  | None => missing_command
  | Some commandName =>
      if negb (truthy (VStr commandName)) then missing_command
      else run_named commandName
  end.

(** The body of [if (pathname === '/cmd')] (lines 96-151). *)
Definition cmd_route (req : IncomingMessage) (fullUrl : URL) : M unit :=
  if negb (String.eqb (method req) "GET") then
    on_res (sendJson 405 (error_body "Method not allowed. Use GET."))
  else if REQUIRE_API_KEY env && key_rejected req then
    on_res (sendJson 401 (error_body "Unauthorized: missing or invalid API key"))
  else
    run_command fullUrl.

Definition home_page : HomePage :=
  {| page_version := version node;
     page_port := PORT env;
     page_platform := platform node;
     page_uptime := Qfloor (uptime node) |}.

(** The [try] block once the URL is parsed (lines 39-156). *)
Definition dispatch (req : IncomingMessage) (fullUrl : URL) : M unit :=
  let pathname := pathname fullUrl in
  if String.eqb pathname "/" || String.eqb pathname "/index.html" then
    on_res (writeHead 200 [("Content-Type", "text/html")]);;
    on_res (end_ (Html home_page))
  else if String.eqb pathname "/health" then
    on_res (sendJson 200
      (VObj [ ("status", VStr "healthy");
              ("timestamp", VStr (now_iso node));
              ("uptime_seconds", VNum (uptime node)) ]))
  else if String.eqb pathname "/cmd" then
    cmd_route req fullUrl
  else
    on_res (writeHead 404 [("Content-Type", "text/plain")]);;
    on_res (end_ (Text "Not Found")).

(** The base the request URL is resolved against (line 38). *)
Definition base (req : IncomingMessage) : string :=
  "http://" +:+ str_or (headers req !! "host") "localhost".

(** The [try] block (lines 38-156). *)
Definition route (req : IncomingMessage) : M unit :=
  fullUrl ← lift (new_URL (url req) (base req));
  dispatch req fullUrl.

(** The [catch] block (lines 157-160). *)
Definition recover (e : Exn) : M unit :=
  console_error "Request handling error:" e;;
  on_res (sendJson 500 (error_body "Internal server error")).

Definition cors : M unit :=
  on_res (setHeader "Access-Control-Allow-Origin" "*");;
  on_res (setHeader "Access-Control-Allow-Methods" "GET, POST, OPTIONS");;
  on_res (setHeader "Access-Control-Allow-Headers" "Content-Type, x-api-key").

Definition handler (req : IncomingMessage) : M unit :=
  cors;;
  if String.eqb (method req) "OPTIONS" then
    on_res (writeHead 200 []);;
    on_res (end_ NoBody)
  else
    try_catch (route req) recover.

(** After the handler has returned, each child that was spawned ends and
    its callback writes the response. *)
Definition settle (r : ServerResponse) (c : ExecCall) : ServerResponse :=
  match call_child c with
  | Normal p => call_callback c (run_child (call_command c) (call_options c) p) r
  | Throw _ => r
  end.

Definition settle_all (w : World) : World :=
  {| res := fold_left settle (exec_calls w) (res w);
     exec_calls := exec_calls w;
     console := console w |}.

Definition serve (req : IncomingMessage) : World :=
  settle_all (snd (handler req initial_world)).

(** What a [/cmd] request comes to from line 111 on, where the method
    and the key are behind it. *)
Definition from_command_parameter (fullUrl : URL) : World :=
  settle_all (snd (try_catch (run_command fullUrl) recover (answered cors_response))).

(** The commands handed to the process runner while serving a request. *)
Definition executed (req : IncomingMessage) : list string :=
  map call_command (exec_calls (serve req)).

End Server.

(** ** A concrete setting for examples

    [plain_URL] stands in for the WHATWG parser on the request targets
    the examples use: an absolute path and an optional query, made of
    letters, digits and [/ . - _ = &] only, with no empty and no dot
    segments. On such targets the real parser neither rewrites the path
    nor decodes anything, and the result does not depend on the base.
    The one other target used is [//], which the real parser rejects
    for its empty host. [plain_URL] is for examples only: the theorems
    hold for every parser. *)

Fixpoint split_first (sep : Ascii.ascii) (s : string) : string * option string :=
  match s with
  | EmptyString => (EmptyString, None)
  | String c rest =>
      if Ascii.eqb c sep then (EmptyString, Some rest)
      else let '(a, b) := split_first sep rest in (String c a, b)
  end.

Fixpoint split_all (sep : Ascii.ascii) (s : string) (cur : string) : list string :=
  match s with
  | EmptyString => [cur]
  | String c rest =>
      if Ascii.eqb c sep then cur :: split_all sep rest EmptyString
      else split_all sep rest (cur +:+ String c EmptyString)
  end.

Definition query_pair (s : string) : string * string :=
  match split_first "="%char s with
  | (n, Some v) => (n, v)
  | (n, None) => (n, "")
  end.

Definition plain_query (q : string) : list (string * string) :=
  map query_pair (filter (fun s => s ≠ "") (split_all "&"%char q "")).

Definition invalid_URL : Exn :=
  {| exn_name := "TypeError"; exn_message := "Invalid URL" |}.

Definition plain_URL (input base : string) : completion URL :=
  match input with
  | String "/"%char (String "/"%char EmptyString) => Throw invalid_URL
  | String "/"%char _ =>
      let '(path, q) := split_first "?"%char input in
      Normal {| pathname := path; searchParams := plain_query (default "" q) |}
  | _ => Throw invalid_URL
  end.

Definition example_node : Runtime :=
  {| version := "v20.11.0"; platform := "linux"; uptime := 5 # 2;
     now_iso := "2024-01-01T00:00:00.000Z" |}.

(** A child that prints one line and exits with the given status. *)
Definition quick_child (line : string) (st : N) : Process :=
  Ran [ {| at_ms := 3; stream := Stdout; data := line |} ] 4 (Exited st).

Definition example_os (cmd : string) : completion Process :=
  Normal (quick_child (" 10:00:00 up 1 day" +:+ newline) 0).

Definition get (target : string) (hs : list (string * string)) : IncomingMessage :=
  {| method := "GET"; url := target; headers := list_to_map hs |}.

Definition open_env : gmap string string := ∅.
Definition secret_env : gmap string string := {[ "ADMIN_API_KEY" := "secret" ]}.

(** Children and requests for the concrete runs. *)

Definition tiny : ExecOptions := {| timeout := 50; maxBuffer := 4 |}.

Definition says (t : Z) (s : Stream) (text : string) : Chunk :=
  {| at_ms := t; stream := s; data := text |}.

(** Text outside ASCII, by its UTF-8 bytes: U+00E9, one UTF-16 unit in
    two bytes, and U+1F600, two units in four bytes. *)
Definition e_acute : string :=
  String (Ascii.ascii_of_N 195) (String (Ascii.ascii_of_N 169) "").

Definition grinning_face : string :=
  String (Ascii.ascii_of_N 240) (String (Ascii.ascii_of_N 159)
    (String (Ascii.ascii_of_N 152) (String (Ascii.ascii_of_N 128) ""))).

(** U+D83D, the first half of the pair of U+1F600, on its own. *)
Definition half_face : string :=
  String (Ascii.ascii_of_N 237) (String (Ascii.ascii_of_N 160)
    (String (Ascii.ascii_of_N 189) "")).

Definition failing_os (cmd : string) : completion Process :=
  Normal (quick_child "" 2).

Definition slow_os (cmd : string) : completion Process :=
  Normal (Ran [] 6000 (Exited 0)).

Definition broken_os (cmd : string) : completion Process :=
  Throw {| exn_name := "Error"; exn_message := "spawn ENOMEM" |}.

Definition cmd_url (name : string) : URL :=
  {| pathname := "/cmd"; searchParams := [("command", name)] |}.

Definition post (target : string) : IncomingMessage :=
  {| method := "POST"; url := target; headers := ∅ |}.

(** A child that is noisy on both streams.

    600 KiB on stdout, then 600 KiB on stderr, then a clean exit after
    10 ms: more than 1 MiB in all, less than 1 MiB on either stream. *)





(** A child that floods stdout: one byte more than 1 MiB, then a clean
    exit. *)
Definition flood : string := N.iter 1048577 (String "x"%char) "".

Definition flooding_chunks : list Chunk :=
  [ {| at_ms := 1; stream := Stdout; data := flood |} ].

Definition flooding_child : Process := Ran flooding_chunks 2 (Exited 0).

Definition flooding_os (cmd : string) : completion Process := Normal flooding_child.

(** A child that is ended by a signal from outside. *)
Definition shot_os (cmd : string) : completion Process :=
  Normal (Ran [] 3 (Signalled "SIGKILL")).

(** ** Responses, as the statements below name them *)

(** A finished response carrying the CORS headers and one content type. *)
Definition reply (status : Z) (content_type : string) (b : Body) : ServerResponse :=
  {| statusCode := status;
     getHeaders := cors_headers ++ [("Content-Type", content_type)];
     body := b;
     finished := true |}.

Definition json_reply (status : Z) (obj : value) : ServerResponse :=
  reply status "application/json" (Json obj).

Definition preflight_reply : ServerResponse :=
  {| statusCode := 200; getHeaders := cors_headers; body := NoBody; finished := true |}.

(** The shell commands of the registry. *)
Definition shell_commands : list string := ["uptime"; "df -h"; "free -m"].

(** Everything the child writes to one stream, when left alone. *)
Fixpoint written (s : Stream) (chunks : list Chunk) : string :=
  match chunks with
  | [] => ""
  | c :: rest =>
      match s, stream c with
      | Stdout, Stdout | Stderr, Stderr => data c +:+ written s rest
      | _, _ => written s rest
      end
  end.

(** The child writes nothing at or after the moment the timer fires. *)
Definition writes_in_time (opts : ExecOptions) (chunks : list Chunk) : Prop :=
  Forall (fun c => timer_fired opts (at_ms c) = false) chunks.

(** The timer fires before the child does anything more: before its
    next chunk, or before its end when it writes nothing more. *)
Definition timer_first (opts : ExecOptions) (later : list Chunk) (ends_at : Z) : Prop :=
  match later with
  | [] => timer_fired opts ends_at = true
  | c :: _ => timer_fired opts (at_ms c) = true
  end.

(** Every call of [exec] a statement makes satisfies [P], given that
    the earlier ones did. *)
Definition calls_satisfy (P : ExecCall -> Prop) {A : Type} (m : M A) : Prop :=
  forall w, Forall P (exec_calls w) -> Forall P (exec_calls (snd (m w))).

(** A call whose child never started: [spawn] threw. *)
Definition never_started (c : ExecCall) : Prop :=
  exists e, call_child c = Throw e.

(** A call that runs a shell command of the registry under the options
    of line 126. *)
Definition registry_call (c : ExecCall) : Prop :=
  call_command c ∈ shell_commands /\ call_options c = exec_options.

(** ** The outcomes of a request

    One constructor for each way the handler ends, with what was sent,
    spawned and logged. *)

Section Outcomes.

Variable env : gmap string string.
Variable node : Runtime.
Variable new_URL : string -> string -> completion URL.
Variable spawn : string -> completion Process.

(** What [recover] leaves behind after an exception [e], given the
    calls of [exec] made before it. *)
Definition crashed (calls : list ExecCall) (e : Exn) : World :=
  {| res := json_reply 500 (error_body "Internal server error");
     exec_calls := calls;
     console := [("Request handling error:", e)] |}.

(** The one call of [exec] for the registry key [c] mapped to [cmd]. *)
Definition the_call (c cmd : string) : ExecCall :=
  {| call_command := cmd; call_options := exec_options;
     call_child := spawn cmd; call_callback := exec_callback c |}.

(** The request got to the [/cmd] route as a GET and passed the key. *)
Definition admitted (req : IncomingMessage) (u : URL) : Prop :=
  method req = "GET" /\
  new_URL (url req) (base req) = Normal u /\ pathname u = "/cmd" /\
  REQUIRE_API_KEY env && key_rejected env req = false.

Inductive outcome (req : IncomingMessage) : World -> Prop :=
| out_preflight :
    method req = "OPTIONS" ->
    outcome req (answered preflight_reply)
| out_bad_url e :
    method req <> "OPTIONS" ->
    new_URL (url req) (base req) = Throw e ->
    outcome req (crashed [] e)
| out_home u :
    method req <> "OPTIONS" ->
    new_URL (url req) (base req) = Normal u ->
    pathname u = "/" \/ pathname u = "/index.html" ->
    outcome req (answered (reply 200 "text/html" (Html (home_page env node))))
| out_health u :
    method req <> "OPTIONS" ->
    new_URL (url req) (base req) = Normal u ->
    pathname u = "/health" ->
    outcome req
      (answered (json_reply 200
         (VObj [ ("status", VStr "healthy");
                 ("timestamp", VStr (now_iso node));
                 ("uptime_seconds", VNum (uptime node)) ])))
| out_not_found u :
    method req <> "OPTIONS" ->
    new_URL (url req) (base req) = Normal u ->
    pathname u ∉ ["/"; "/index.html"; "/health"; "/cmd"] ->
    outcome req (answered (reply 404 "text/plain" (Text "Not Found")))
| out_method u :
    method req <> "OPTIONS" -> method req <> "GET" ->
    new_URL (url req) (base req) = Normal u -> pathname u = "/cmd" ->
    outcome req (answered (json_reply 405 (error_body "Method not allowed. Use GET.")))
| out_key u :
    method req = "GET" ->
    new_URL (url req) (base req) = Normal u -> pathname u = "/cmd" ->
    REQUIRE_API_KEY env = true -> key_rejected env req = true ->
    outcome req
      (answered (json_reply 401 (error_body "Unauthorized: missing or invalid API key")))
| out_missing u :
    admitted req u ->
    searchParams_get "command" (searchParams u) = None \/
    searchParams_get "command" (searchParams u) = Some "" ->
    outcome req
      (answered (json_reply 400
         (error_body ("Missing " +:+ dquote +:+ "command" +:+ dquote +:+ " query parameter"))))
| out_forbidden u c :
    admitted req u ->
    searchParams_get "command" (searchParams u) = Some c -> c <> "" ->
    own ALLOWED_COMMANDS !! c = None ->
    outcome req (answered (json_reply 403 (error_body "Command not allowed")))
| out_spawn_threw u c cmd e :
    admitted req u ->
    searchParams_get "command" (searchParams u) = Some c ->
    own ALLOWED_COMMANDS !! c = Some (VStr cmd) ->
    spawn cmd = Throw e ->
    outcome req (crashed [the_call c cmd] e)
| out_ran u c cmd p :
    admitted req u ->
    searchParams_get "command" (searchParams u) = Some c ->
    own ALLOWED_COMMANDS !! c = Some (VStr cmd) ->
    spawn cmd = Normal p ->
    outcome req
      {| res := exec_callback c (run_child cmd exec_options p) cors_response;
         exec_calls := [the_call c cmd];
         console := [] |}.

End Outcomes.

(** * Properties *)

Section Properties.

Variable env : gmap string string.
Variable node : Runtime.
Variable new_URL : string -> string -> completion URL.
Variable spawn : string -> completion Process.

Local Abbreviation serve := (serve env node new_URL spawn).
Local Abbreviation executed := (executed env node new_URL spawn).
Local Abbreviation handler := (handler env node new_URL spawn).
Local Abbreviation route := (route env node new_URL spawn).
Local Abbreviation dispatch := (dispatch env node spawn).
Local Abbreviation cmd_route := (cmd_route env spawn).
Local Abbreviation run_command := (run_command spawn).
Local Abbreviation run_named := (run_named spawn).
Local Abbreviation exec := (exec spawn).
Local Abbreviation from_command_parameter := (from_command_parameter spawn).
Local Abbreviation outcome := (outcome env node new_URL spawn).
Local Abbreviation admitted := (admitted env new_URL).
Local Abbreviation the_call := (the_call spawn).

(** *** The stages of the handler *)

Lemma cors_run : cors initial_world = (Normal tt, answered cors_response).
Proof. reflexivity. Qed.

Lemma sendJson_cors status obj :
  sendJson status obj cors_response = json_reply status obj.
Proof. reflexivity. Qed.

Lemma handler_OPTIONS req :
  method req = "OPTIONS" ->
  handler req initial_world = (Normal tt, answered preflight_reply).
Proof.
  intros Hm. unfold handler, mbind, M_bind. rewrite cors_run, Hm. reflexivity.
Qed.

Lemma handler_routed req :
  method req <> "OPTIONS" ->
  handler req initial_world = try_catch (route req) recover (answered cors_response).
Proof.
  intros Hm. apply String.eqb_neq in Hm.
  unfold handler, mbind, M_bind. rewrite cors_run, Hm. reflexivity.
Qed.

Lemma route_parsed req u w :
  new_URL (url req) (base req) = Normal u -> route req w = dispatch req u w.
Proof. intros Hu. unfold route, mbind, M_bind, lift. rewrite Hu. reflexivity. Qed.

Lemma route_malformed req e w :
  new_URL (url req) (base req) = Throw e -> route req w = (Throw e, w).
Proof. intros Hu. unfold route, mbind, M_bind, lift. rewrite Hu. reflexivity. Qed.

Lemma dispatch_cmd req u :
  pathname u = "/cmd" -> dispatch req u = cmd_route req u.
Proof. intros Hp. unfold dispatch. rewrite Hp. reflexivity. Qed.

Lemma dispatch_unknown req u w :
  pathname u ∉ ["/"; "/index.html"; "/health"; "/cmd"] ->
  dispatch req u w =
  (Normal tt,
   {| res := end_ (Text "Not Found") (writeHead 404 [("Content-Type", "text/plain")] (res w));
      exec_calls := exec_calls w; console := console w |}).
Proof.
  intros Hp. unfold dispatch.
  assert (String.eqb (pathname u) "/" = false) as ->
    by (apply String.eqb_neq; intros E; apply Hp; rewrite E; set_solver).
  assert (String.eqb (pathname u) "/index.html" = false) as ->
    by (apply String.eqb_neq; intros E; apply Hp; rewrite E; set_solver).
  assert (String.eqb (pathname u) "/health" = false) as ->
    by (apply String.eqb_neq; intros E; apply Hp; rewrite E; set_solver).
  assert (String.eqb (pathname u) "/cmd" = false) as ->
    by (apply String.eqb_neq; intros E; apply Hp; rewrite E; set_solver).
  reflexivity.
Qed.

(** *** The registry *)

Lemma registry_own c v :
  own ALLOWED_COMMANDS !! c = Some v <->
  (c = "uptime" /\ v = VStr "uptime") \/
  (c = "disk" /\ v = VStr "df -h") \/
  (c = "memory" /\ v = VStr "free -m").
Proof.
  unfold ALLOWED_COMMANDS. cbn [own list_to_map foldr fst snd].
  rewrite !lookup_insert, lookup_empty.
  repeat case_decide; subst; split;
    intros Hv; try (destruct Hv as [[? ?]|[[? ?]|[? ?]]]); simplify_eq; auto; done.
Qed.

Lemma hasOwnProperty_registry c :
  hasOwnProperty ALLOWED_COMMANDS c = true <-> c ∈ ["uptime"; "disk"; "memory"].
Proof.
  unfold hasOwnProperty. rewrite bool_decide_eq_true. split.
  - intros [v Hv]. apply registry_own in Hv.
    destruct Hv as [[-> _]|[[-> _]|[-> _]]]; set_solver.
  - intros H. rewrite !elem_of_cons, elem_of_nil in H.
    destruct H as [->|[->|[->|[]]]]; eexists; apply registry_own; eauto.
Qed.

Lemma registry_shell_command c v :
  own ALLOWED_COMMANDS !! c = Some v ->
  exists cmd, v = VStr cmd /\ cmd ∈ shell_commands.
Proof.
  intros H. apply registry_own in H. unfold shell_commands.
  destruct H as [[_ ->]|[[_ ->]|[_ ->]]]; eexists; split; eauto; set_solver.
Qed.

Lemma get_property_own o c v :
  own o !! c = Some v -> get_property o c = v.
Proof. intros H. unfold get_property. rewrite H. reflexivity. Qed.

Lemma hasOwnProperty_true o c :
  hasOwnProperty o c = true <-> is_Some (own o !! c).
Proof. unfold hasOwnProperty. apply bool_decide_eq_true. Qed.

Lemma hasOwnProperty_false o c :
  hasOwnProperty o c = false <-> own o !! c = None.
Proof.
  unfold hasOwnProperty. rewrite bool_decide_eq_false.
  rewrite eq_None_not_Some. reflexivity.
Qed.

Lemma truthy_string s : truthy (VStr s) = true <-> s <> "".
Proof.
  cbn. rewrite negb_true_iff. apply String.eqb_neq.
Qed.

Lemma stream_text_id s : stream_text s = s.
Proof.
  unfold stream_text. destruct s; reflexivity.
Qed.

(** *** The stages of the [/cmd] route *)

Lemma cmd_route_not_GET req u :
  method req <> "GET" ->
  cmd_route req u = on_res (sendJson 405 (error_body "Method not allowed. Use GET.")).
Proof.
  intros Hm. apply String.eqb_neq in Hm. unfold cmd_route. rewrite Hm. reflexivity.
Qed.

Lemma cmd_route_unauthorized req u :
  method req = "GET" -> REQUIRE_API_KEY env = true -> key_rejected env req = true ->
  cmd_route req u =
  on_res (sendJson 401 (error_body "Unauthorized: missing or invalid API key")).
Proof.
  intros Hm Hr Hk. unfold cmd_route. rewrite Hm, Hr, Hk. reflexivity.
Qed.

Lemma cmd_route_pass req u :
  method req = "GET" -> REQUIRE_API_KEY env && key_rejected env req = false ->
  cmd_route req u = run_command u.
Proof.
  intros Hm Hk. unfold cmd_route. rewrite Hm, Hk. reflexivity.
Qed.

Lemma run_command_missing u :
  searchParams_get "command" (searchParams u) = None \/
  searchParams_get "command" (searchParams u) = Some "" ->
  run_command u = missing_command.
Proof.
  intros [H|H]; unfold run_command; rewrite H; reflexivity.
Qed.

Lemma run_command_named u c :
  searchParams_get "command" (searchParams u) = Some c -> c <> "" ->
  run_command u = run_named c.
Proof.
  intros H Hc. apply truthy_string in Hc.
  unfold run_command. rewrite H, Hc. reflexivity.
Qed.

Lemma run_named_rejected c :
  hasOwnProperty ALLOWED_COMMANDS c = false ->
  run_named c = on_res (sendJson 403 (error_body "Command not allowed")).
Proof. intros H. unfold run_named. rewrite H. reflexivity. Qed.

Lemma run_named_allowed c v :
  own ALLOWED_COMMANDS !! c = Some v ->
  run_named c = exec v exec_options (exec_callback c).
Proof.
  intros H. unfold run_named.
  assert (hasOwnProperty ALLOWED_COMMANDS c = true) as ->
    by (apply hasOwnProperty_true; eauto).
  rewrite (get_property_own _ _ _ H). reflexivity.
Qed.

(** A request that reaches the [/cmd] route. *)
Lemma handler_cmd req u :
  method req <> "OPTIONS" ->
  new_URL (url req) (base req) = Normal u -> pathname u = "/cmd" ->
  handler req initial_world =
  try_catch (cmd_route req u) recover (answered cors_response).
Proof.
  intros Hm Hu Hp. rewrite handler_routed by done.
  unfold try_catch. rewrite (route_parsed _ _ _ Hu), (dispatch_cmd _ _ Hp).
  reflexivity.
Qed.

(** A response sent from the route, with nothing spawned. *)
Lemma serve_cmd_reply req u status obj :
  method req <> "OPTIONS" ->
  new_URL (url req) (base req) = Normal u -> pathname u = "/cmd" ->
  cmd_route req u = on_res (sendJson status obj) ->
  serve req = answered (json_reply status obj).
Proof.
  intros Hm Hu Hp Hc. unfold serve.
  rewrite (handler_cmd _ _ Hm Hu Hp), Hc. reflexivity.
Qed.

Lemma GET_not_OPTIONS req : method req = "GET" -> method req <> "OPTIONS".
Proof. intros ->. discriminate. Qed.

(** *** What reaches the process runner *)

Section Calls.
Variable P : ExecCall -> Prop.

Lemma calls_on_res f : calls_satisfy P (on_res f).
Proof. intros w Hw. exact Hw. Qed.

Lemma calls_console_error l e : calls_satisfy P (console_error l e).
Proof. intros w Hw. exact Hw. Qed.

Lemma calls_lift {A} (c : completion A) : calls_satisfy P (lift c).
Proof. intros w Hw. exact Hw. Qed.

Lemma calls_throw {A} e : calls_satisfy P (@throw A e).
Proof. intros w Hw. exact Hw. Qed.

Lemma calls_bind {A B} (m : M A) (f : A -> M B) :
  calls_satisfy P m -> (forall a, calls_satisfy P (f a)) ->
  calls_satisfy P (m ≫= f).
Proof.
  intros Hm Hf w Hw. unfold mbind, M_bind.
  specialize (Hm w Hw). destruct (m w) as [[a|e] w']; cbn in *.
  - apply Hf, Hm.
  - exact Hm.
Qed.

Lemma calls_try_catch body handle :
  calls_satisfy P body -> (forall e, calls_satisfy P (handle e)) ->
  calls_satisfy P (try_catch body handle).
Proof.
  intros Hb Hh w Hw. unfold try_catch.
  specialize (Hb w Hw). destruct (body w) as [[a|e] w']; cbn in *.
  - exact Hb.
  - apply Hh, Hb.
Qed.

Lemma calls_exec v opts cb :
  (forall cmd, v = VStr cmd ->
     P {| call_command := cmd; call_options := opts;
          call_child := spawn cmd; call_callback := cb |}) ->
  calls_satisfy P (exec v opts cb).
Proof.
  intros Hv w Hw. unfold exec.
  destruct v; try exact Hw.
  assert (Forall P (exec_calls w ++
            [{| call_command := s; call_options := opts;
                call_child := spawn s; call_callback := cb |}])%list) as Hall
    by (apply Forall_app; split; [exact Hw | repeat constructor; auto]).
  destruct (spawn s); exact Hall.
Qed.

End Calls.

Lemma calls_run_named c : calls_satisfy registry_call (run_named c).
Proof.
  unfold run_named.
  destruct (hasOwnProperty ALLOWED_COMMANDS c) eqn:Hown; cbn [negb].
  - apply hasOwnProperty_true in Hown as [v Hv].
    rewrite (get_property_own _ _ _ Hv).
    apply calls_exec. intros cmd ->.
    destruct (registry_shell_command _ _ Hv) as (cmd' & Heq & Hin).
    injection Heq as ->. split; [exact Hin | reflexivity].
  - apply calls_on_res.
Qed.

Lemma calls_cmd_route req u : calls_satisfy registry_call (cmd_route req u).
Proof.
  unfold cmd_route, run_command, missing_command.
  repeat case_match; auto using calls_on_res, calls_run_named.
Qed.

Lemma calls_handler req : calls_satisfy registry_call (handler req).
Proof.
  unfold handler, cors, route, dispatch, recover.
  repeat first
    [ apply calls_on_res | apply calls_console_error | apply calls_lift
    | apply calls_cmd_route
    | apply calls_bind; [|intros ?]
    | apply calls_try_catch; [|intros ?]
    | case_match ].
Qed.

Lemma serve_calls req : Forall registry_call (exec_calls (serve req)).
Proof.
  unfold serve, settle_all. cbn [exec_calls].
  apply calls_handler. constructor.
Qed.

(** *** Exceptions *)

Lemma settle_never_started calls r :
  Forall never_started calls -> fold_left settle calls r = r.
Proof.
  induction 1 as [|c calls [e He] _ IH]; cbn; [reflexivity|].
  unfold settle at 2. rewrite He. exact IH.
Qed.

(** When the [try] block throws, nothing has been written to [res] or to
    the console, and no child is running. *)
Lemma route_throws req e w0 w :
  route req w0 = (Throw e, w) ->
  res w = res w0 /\ console w = console w0 /\
  exists extra, exec_calls w = (exec_calls w0 ++ extra)%list /\ Forall never_started extra.
Proof.
  assert (forall w1 : World,
            res w1 = res w1 /\ console w1 = console w1 /\
            exists extra, exec_calls w1 = (exec_calls w1 ++ extra)%list /\
                          Forall never_started extra) as Hsame
    by (intros w1; repeat split; exists []; rewrite app_nil_r; auto).
  unfold route, dispatch, cmd_route, run_command, run_named, missing_command,
    exec, throw, lift, on_res, mbind, M_bind.
  intros H. repeat case_match; simplify_eq; cbn; try apply Hsame.
  split; [reflexivity|]. split; [reflexivity|].
  eexists. split; [reflexivity|].
  constructor; [|constructor]. exists e. reflexivity.
Qed.

(** *** The key check *)

Lemma key_configured key :
  env !! "ADMIN_API_KEY" = Some key -> key <> "" ->
  REQUIRE_API_KEY env = true /\ ADMIN_API_KEY env = key.
Proof.
  intros He Hk. apply truthy_string in Hk.
  unfold REQUIRE_API_KEY, ADMIN_API_KEY, str_or, js_or. rewrite He.
  cbn [of_option]. rewrite Hk. split; reflexivity.
Qed.

Lemma key_not_configured :
  env !! "ADMIN_API_KEY" = None \/ env !! "ADMIN_API_KEY" = Some "" ->
  REQUIRE_API_KEY env = false.
Proof. intros [H|H]; unfold REQUIRE_API_KEY; rewrite H; reflexivity. Qed.

Lemma key_rejected_iff req key :
  ADMIN_API_KEY env = key -> key <> "" ->
  key_rejected env req = true <-> headers req !! "x-api-key" <> Some key.
Proof.
  intros Ha Hk. unfold key_rejected. rewrite Ha.
  destruct (headers req !! "x-api-key") as [h|] eqn:Hh.
  - destruct (decide (h = "")) as [->|Hne].
    + cbn. split; [intros _ [=]; congruence | reflexivity].
    + pose proof Hne as Ht. apply truthy_string in Ht.
      unfold str_or, js_or. cbn [of_option]. rewrite Ht, Ht. cbn [negb orb].
      rewrite negb_true_iff, String.eqb_neq. split; congruence.
  - cbn. split; [intros _ [=] | reflexivity].
Qed.

Lemma serve_from_command_parameter req u :
  method req = "GET" ->
  new_URL (url req) (base req) = Normal u -> pathname u = "/cmd" ->
  REQUIRE_API_KEY env && key_rejected env req = false ->
  serve req = from_command_parameter u.
Proof.
  intros Hm Hu Hp Hk. unfold serve.
  rewrite (handler_cmd _ _ (GET_not_OPTIONS _ Hm) Hu Hp).
  unfold try_catch. rewrite (cmd_route_pass _ _ Hm Hk). reflexivity.
Qed.

Lemma exec_callback_status c r r0 : statusCode (exec_callback c r r0) = 200.
Proof. destruct r as [[[e|] o] e']; reflexivity. Qed.

Lemma from_command_parameter_status u :
  statusCode (res (from_command_parameter u)) ∈ [200; 400; 403; 500].
Proof.
  unfold from_command_parameter, settle_all, try_catch, run_command, run_named,
    missing_command, recover, exec, throw, console_error, on_res, mbind, M_bind,
    answered.
  repeat case_match; simplify_eq; cbn [snd res exec_calls fold_left app];
    try (unfold settle; cbn [call_child call_callback];
         repeat case_match; simplify_eq; try rewrite exec_callback_status);
    cbn; set_solver.
Qed.

(** *** The process runner *)

Lemma append_cons x s t : String x s +:+ t = String x (s +:+ t).
Proof. reflexivity. Qed.

Lemma append_empty_l s : "" +:+ s = s.
Proof. reflexivity. Qed.

Lemma append_empty_r s : s +:+ "" = s.
Proof.
  induction s as [|x s IH]; [reflexivity|]. rewrite append_cons, IH. reflexivity.
Qed.

Lemma append_assoc a b c : (a +:+ b) +:+ c = a +:+ (b +:+ c).
Proof.
  induction a as [|x a IH]; [reflexivity|]. rewrite !append_cons, IH. reflexivity.
Qed.

Lemma byteLength_append a b : byteLength (a +:+ b) = byteLength a + byteLength b.
Proof.
  unfold byteLength. induction a as [|x a IH].
  - rewrite append_empty_l. cbn. lia.
  - rewrite append_cons. cbn [String.length]. rewrite !Nat2Z.inj_succ, IH. lia.
Qed.

Lemma byteLength_nonneg s : 0 <= byteLength s.
Proof. unfold byteLength. lia. Qed.

(** If the listeners saw the last chunk, every chunk came in time, both
    buffers hold all that was written and both counters are their
    lengths, each within the limit it started within. *)
Lemma collect_complete opts chunks : forall b b',
  collect opts chunks b = (b', None) ->
  writes_in_time opts chunks /\
  stdout_buf b' = stdout_buf b +:+ written Stdout chunks /\
  stderr_buf b' = stderr_buf b +:+ written Stderr chunks /\
  stdoutLen b' = stdoutLen b + byteLength (written Stdout chunks) /\
  stderrLen b' = stderrLen b + byteLength (written Stderr chunks) /\
  (stdoutLen b <= maxBuffer opts -> stdoutLen b' <= maxBuffer opts) /\
  (stderrLen b <= maxBuffer opts -> stderrLen b' <= maxBuffer opts).
Proof.
  induction chunks as [|c rest IH]; intros b b' H; cbn [collect] in H.
  - injection H as <-. cbn [written]. rewrite !append_empty_r.
    unfold byteLength; cbn. repeat split; try constructor; try lia.
  - destruct (timer_fired opts (at_ms c)) eqn:Ht; [discriminate|].
    destruct (stream c) eqn:Hs; cbn [written]; rewrite Hs;
      match type of H with
      | (if ?t then _ else _) = _ => destruct t eqn:Hcap; [discriminate|]
      end;
      apply Z.ltb_ge in Hcap;
      apply IH in H as (Hin & Ho & He & Hol & Hel & Hoc & Hec);
      cbn [stdout_buf stderr_buf stdoutLen stderrLen] in *;
      rewrite ?byteLength_append, <- ?append_assoc;
      (split; [constructor; assumption|]);
      repeat split; try assumption; try lia.
Qed.

(** Conversely, chunks that come in time and fit are all collected. *)
Lemma collect_within opts chunks : forall b,
  writes_in_time opts chunks ->
  stdoutLen b + byteLength (written Stdout chunks) <= maxBuffer opts ->
  stderrLen b + byteLength (written Stderr chunks) <= maxBuffer opts ->
  collect opts chunks b =
  ({| stdout_buf := stdout_buf b +:+ written Stdout chunks;
      stdoutLen := stdoutLen b + byteLength (written Stdout chunks);
      stderr_buf := stderr_buf b +:+ written Stderr chunks;
      stderrLen := stderrLen b + byteLength (written Stderr chunks) |}, None).
Proof.
  induction chunks as [|c rest IH]; intros b Hin Ho He; cbn [collect].
  - cbn [written]. rewrite !append_empty_r. unfold byteLength; cbn.
    rewrite !Z.add_0_r. destruct b; reflexivity.
  - inversion Hin as [|? ? Ht Hrest]; subst. rewrite Ht.
    pose proof (byteLength_nonneg (written Stdout rest)).
    pose proof (byteLength_nonneg (written Stderr rest)).
    cbn [written] in *. destruct (stream c) eqn:Hs;
      rewrite ?byteLength_append in *;
      match goal with
      | |- (if ?t then _ else _) = _ =>
          assert (t = false) as -> by (apply Z.ltb_ge; lia)
      end;
      rewrite IH by (cbn [stdoutLen stderrLen]; auto; lia);
      cbn [stdout_buf stderr_buf stdoutLen stderrLen];
      rewrite ?append_assoc, ?Z.add_assoc; reflexivity.
Qed.

(** The callback gets no error exactly when the child wrote in time
    and within the limit on each stream, and then exited with status 0
    before the timer fired; its output is then complete. *)
Lemma run_child_success cmd opts chunks ends_at ending out errs :
  0 <= maxBuffer opts ->
  run_child cmd opts (Ran chunks ends_at ending) = (None, out, errs) <->
  writes_in_time opts chunks /\ timer_fired opts ends_at = false /\
  byteLength (written Stdout chunks) <= maxBuffer opts /\
  byteLength (written Stderr chunks) <= maxBuffer opts /\
  ending = Exited 0 /\
  out = written Stdout chunks /\ errs = written Stderr chunks.
Proof.
  intros Hmax. unfold run_child. split.
  - destruct (collect opts chunks no_output) as [b [[|s]|]] eqn:Hc; try discriminate.
    destruct (timer_fired opts ends_at); [discriminate|].
    destruct ending as [[|st]|sg]; try discriminate.
    intros [= <- <-].
    apply collect_complete in Hc as (Hin & Ho & He & Hol & Hel & Hoc & Hec).
    cbn [no_output stdout_buf stderr_buf stdoutLen stderrLen] in *.
    rewrite append_empty_l in Ho, He.
    specialize (Hoc Hmax). specialize (Hec Hmax).
    repeat split; auto; lia.
  - intros (Hin & Ht & Ho & He & -> & -> & ->).
    rewrite (collect_within opts chunks no_output Hin) by (cbn; lia).
    rewrite Ht. reflexivity.
Qed.

(** The code and the signal of an error of the runner are a number, a
    string, [null] or [undefined]: after [|| null] they are values JSON
    has. *)
Lemma run_child_error cmd opts p e out errs :
  run_child cmd opts p = (Some e, out, errs) ->
  serialisable (js_or (code e) VNull) = true /\
  serialisable (js_or (signal e) VNull) = true.
Proof.
  unfold run_child, command_failed. intros H.
  repeat case_match; simplify_eq; cbn [code signal];
    unfold js_or; cbn [truthy]; split; repeat case_match; reflexivity.
Qed.

(** A request that passes every check runs the mapped command; the
    response is the callback's. *)
Lemma serve_runs req u c cmd p :
  method req = "GET" ->
  new_URL (url req) (base req) = Normal u -> pathname u = "/cmd" ->
  REQUIRE_API_KEY env && key_rejected env req = false ->
  searchParams_get "command" (searchParams u) = Some c ->
  own ALLOWED_COMMANDS !! c = Some (VStr cmd) ->
  spawn cmd = Normal p ->
  serve req =
  {| res := exec_callback c (run_child cmd exec_options p) cors_response;
     exec_calls := [ {| call_command := cmd; call_options := exec_options;
                        call_child := Normal p; call_callback := exec_callback c |} ];
     console := [] |}.
Proof.
  intros Hm Hu Hp Hk Hc Hown Hs.
  assert (c <> "") as Hne.
  { intros ->. apply registry_own in Hown.
    destruct Hown as [[? _]|[[? _]|[? _]]]; discriminate. }
  rewrite (serve_from_command_parameter _ _ Hm Hu Hp Hk).
  unfold from_command_parameter, try_catch.
  rewrite (run_command_named _ _ Hc Hne), (run_named_allowed _ _ Hown).
  unfold exec. rewrite Hs. cbn [snd settle_all exec_calls res console app fold_left].
  unfold settle. cbn [call_child call_callback call_command call_options].
  reflexivity.
Qed.

Lemma timer_fired_exec_options t :
  timer_fired exec_options t = false <-> t < 5000.
Proof.
  unfold timer_fired. cbn [timeout exec_options Z.ltb Z.compare andb].
  apply Z.leb_gt.
Qed.

(** Chunks that all come before the timer cannot end in a timeout. *)
Lemma collect_in_time opts chunks : forall b b' stop,
  writes_in_time opts chunks ->
  collect opts chunks b = (b', Some stop) ->
  exists s, stop = Overflow s.
Proof.
  induction chunks as [|c rest IH]; intros b b' stop Hin H; cbn [collect] in H.
  - discriminate.
  - inversion Hin as [|? ? Ht Hrest]; subst. rewrite Ht in H.
    destruct (stream c);
      match type of H with
      | (if ?t then _ else _) = _ => destruct t
      end;
      first [ injection H as _ <-; eauto | eapply IH; eassumption ].
Qed.

(** Chunks that fit on each stream cannot end in an overflow. *)
Lemma collect_fits opts chunks : forall b b' stop,
  stdoutLen b + byteLength (written Stdout chunks) <= maxBuffer opts ->
  stderrLen b + byteLength (written Stderr chunks) <= maxBuffer opts ->
  collect opts chunks b = (b', Some stop) ->
  stop = TimedOut.
Proof.
  induction chunks as [|c rest IH]; intros b b' stop Ho He H; cbn [collect] in H.
  - discriminate.
  - destruct (timer_fired opts (at_ms c)); [injection H as _ <-; reflexivity|].
    pose proof (byteLength_nonneg (written Stdout rest)).
    pose proof (byteLength_nonneg (written Stderr rest)).
    cbn [written] in *. destruct (stream c) eqn:Hs;
      rewrite ?byteLength_append in *;
      match type of H with
      | (if ?t then _ else _) = _ =>
          assert (t = false) as Hcap by (apply Z.ltb_ge; lia); rewrite Hcap in H
      end;
      apply IH in H; auto; cbn [stdoutLen stderrLen]; lia.
Qed.

(** Once the runner has stopped listening, what the child would have
    written next does not count. *)
Lemma collect_stops opts earlier later : forall b b' stop,
  collect opts earlier b = (b', Some stop) ->
  collect opts (earlier ++ later)%list b = (b', Some stop).
Proof.
  induction earlier as [|c rest IH]; intros b b' stop H; cbn [collect app] in *.
  - discriminate.
  - destruct (timer_fired opts (at_ms c)); [exact H|].
    destruct (stream c);
      match type of H with
      | (if ?t then _ else _) = _ => destruct t
      end;
      first [ exact H | apply IH, H ].
Qed.

(** What the error carries, kind by kind. *)
Lemma run_child_nonzero cmd chunks ends_at st :
  st <> 0%N ->
  writes_in_time exec_options chunks -> ends_at < 5000 ->
  byteLength (written Stdout chunks) <= 1048576 ->
  byteLength (written Stderr chunks) <= 1048576 ->
  exists e out errs,
    run_child cmd exec_options (Ran chunks ends_at (Exited st)) = (Some e, out, errs) /\
    js_or (code e) VNull = VNum (inject_Z (Z.of_N st)) /\
    js_or (signal e) VNull = VNull.
Proof.
  intros Hst Hin Ht Ho He. unfold run_child.
  rewrite (collect_within exec_options chunks no_output Hin) by (cbn; lia).
  apply timer_fired_exec_options in Ht. rewrite Ht.
  destruct st as [|n]; [contradiction|].
  do 3 eexists. split; [reflexivity|]. split; reflexivity.
Qed.

Lemma run_child_signalled cmd chunks ends_at sg :
  sg <> "" ->
  writes_in_time exec_options chunks -> ends_at < 5000 ->
  byteLength (written Stdout chunks) <= 1048576 ->
  byteLength (written Stderr chunks) <= 1048576 ->
  exists e out errs,
    run_child cmd exec_options (Ran chunks ends_at (Signalled sg)) = (Some e, out, errs) /\
    js_or (code e) VNull = VNull /\
    js_or (signal e) VNull = VStr sg.
Proof.
  intros Hsg Hin Ht Ho He. unfold run_child.
  rewrite (collect_within exec_options chunks no_output Hin) by (cbn; lia).
  apply timer_fired_exec_options in Ht. rewrite Ht.
  apply truthy_string in Hsg.
  do 3 eexists. split; [reflexivity|]. split; [reflexivity|].
  unfold js_or. cbn [signal command_failed]. rewrite Hsg. reflexivity.
Qed.

(** What was collected carries on when the child writes more. *)
Lemma collect_continues opts earlier later : forall b b1,
  collect opts earlier b = (b1, None) ->
  collect opts (earlier ++ later)%list b = collect opts later b1.
Proof.
  induction earlier as [|c rest IH]; intros b b1 H; cbn [collect app] in *.
  - injection H as <-. reflexivity.
  - destruct (timer_fired opts (at_ms c)); [discriminate|].
    destruct (stream c);
      match type of H with
      | (if ?t then _ else _) = _ => destruct t
      end;
      first [ discriminate | apply IH, H ].
Qed.

Lemma run_child_timed_out cmd earlier later ends_at ending :
  writes_in_time exec_options earlier ->
  byteLength (written Stdout earlier) <= 1048576 ->
  byteLength (written Stderr earlier) <= 1048576 ->
  timer_first exec_options later ends_at ->
  exists e out errs,
    run_child cmd exec_options (Ran (earlier ++ later) ends_at ending) = (Some e, out, errs) /\
    js_or (code e) VNull = VNull /\
    js_or (signal e) VNull = VStr "SIGTERM".
Proof.
  intros Hin Ho He Hlate. unfold run_child.
  rewrite (collect_continues _ _ later _ _
             (collect_within exec_options earlier no_output Hin
                ltac:(cbn; lia) ltac:(cbn; lia))).
  destruct later as [|c rest]; cbn [timer_first collect] in *; rewrite Hlate;
    do 3 eexists; (split; [reflexivity|]); split; reflexivity.
Qed.

Lemma run_child_overflowed cmd earlier later ends_at ending :
  writes_in_time exec_options earlier ->
  1048576 < byteLength (written Stdout earlier) \/
  1048576 < byteLength (written Stderr earlier) ->
  exists e out errs,
    run_child cmd exec_options (Ran (earlier ++ later) ends_at ending) = (Some e, out, errs) /\
    js_or (code e) VNull = VStr "ERR_CHILD_PROCESS_STDIO_MAXBUFFER" /\
    js_or (signal e) VNull = VNull.
Proof.
  intros Hin Hover. unfold run_child.
  destruct (collect exec_options earlier no_output) as [b [stop|]] eqn:Hc.
  - destruct (collect_in_time _ _ _ _ _ Hin Hc) as [s ->].
    rewrite (collect_stops _ _ later _ _ _ Hc).
    do 3 eexists. split; [reflexivity|]. split; reflexivity.
  - apply collect_complete in Hc as (_ & _ & _ & Hol & Hel & Hoc & Hec).
    cbn [no_output stdoutLen stderrLen maxBuffer exec_options] in *. lia.
Qed.


(** The two fields of the failure reply that come from the error. *)
Lemma exec_callback_codes c e out errs r0 :
  serialisable (js_or (code e) VNull) = true ->
  serialisable (js_or (signal e) VNull) = true ->
  field "exitCode" (body (exec_callback c (Some e, out, errs) r0)) =
    Some (js_or (code e) VNull) /\
  field "signal" (body (exec_callback c (Some e, out, errs) r0)) =
    Some (js_or (signal e) VNull).
Proof.
  intros Hcode Hsig. cbn [exec_callback sendJson end_ body field json_fields].
  rewrite !filter_cons. cbn [snd serialisable].
  rewrite !decide_True by first [reflexivity | assumption].
  split; reflexivity.
Qed.

(** The four ways a command fails all end in an error for the callback:
    an ending other than exit status 0, too much on stdout, too much on
    stderr, or no ending before the timer fires. *)
Lemma run_child_failure cmd chunks ends_at ending :
  ending <> Exited 0 \/
  1048576 < byteLength (written Stdout chunks) \/
  1048576 < byteLength (written Stderr chunks) \/
  5000 <= ends_at ->
  exists e out errs,
    run_child cmd exec_options (Ran chunks ends_at ending) = (Some e, out, errs).
Proof.
  intros Hbad.
  destruct (run_child cmd exec_options (Ran chunks ends_at ending))
    as [[[e|] out] errs] eqn:Hr; [eauto|].
  apply run_child_success in Hr as (_ & Ht & Ho & He & Hend & _); [|cbn; lia].
  apply timer_fired_exec_options in Ht. cbn in Ho, He.
  destruct Hbad as [Hbad|Hbad]; [contradiction | lia].
Qed.


(** *** The claims of the specification *)

(** C1. Only the three shell commands of the registry ever reach the
    process runner. A GET request to [/cmd] that passed the method, key
    and parameter checks and whose command is not exactly [uptime],
    [disk] or [memory] is answered 403 with
    [{error: "Command not allowed"}] and nothing is spawned. *)
Theorem only_registry_commands_run :
  (forall req, Forall (fun cmd => cmd ∈ ["uptime"; "df -h"; "free -m"]) (executed req)) /\
  (forall req u c,
     method req = "GET" ->
     new_URL (url req) (base req) = Normal u -> pathname u = "/cmd" ->
     REQUIRE_API_KEY env && key_rejected env req = false ->
     searchParams_get "command" (searchParams u) = Some c -> c <> "" ->
     c ∉ ["uptime"; "disk"; "memory"] ->
     res (serve req) = json_reply 403 (VObj [("error", VStr "Command not allowed")]) /\
     executed req = []).
Proof.
  split.
  - intros req. unfold executed. apply Forall_fmap.
    eapply Forall_impl; [apply serve_calls|]. intros c [Hc _]. exact Hc.
  - intros req u c Hm Hu Hp Hk Hc Hne Hnot.
    assert (hasOwnProperty ALLOWED_COMMANDS c = false) as Hown.
    { destruct (hasOwnProperty ALLOWED_COMMANDS c) eqn:E; [|reflexivity].
      apply hasOwnProperty_registry in E. contradiction. }
    unfold executed.
    rewrite (serve_cmd_reply req u 403 (error_body "Command not allowed")
               (GET_not_OPTIONS _ Hm) Hu Hp).
    + split; reflexivity.
    + rewrite (cmd_route_pass _ _ Hm Hk), (run_command_named _ _ Hc Hne).
      apply run_named_rejected, Hown.
Qed.

(** C2. For a GET request to [/cmd]: when [ADMIN_API_KEY] was set to
    a non-empty key, a request whose [x-api-key] header is absent or
    differs from the key is answered 401 with
    [{error: "Unauthorized: missing or invalid API key"}] and nothing is
    spawned, and a request whose header equals the key goes on to the
    command parameter and is never answered 401; when [ADMIN_API_KEY]
    was not set (or set to the empty string), every request goes on to
    the command parameter, whatever its headers. *)
Theorem api_key_gate req u :
  method req = "GET" ->
  new_URL (url req) (base req) = Normal u -> pathname u = "/cmd" ->
  (forall key, env !! "ADMIN_API_KEY" = Some key -> key <> "" ->
     (headers req !! "x-api-key" <> Some key ->
      res (serve req) =
        json_reply 401 (VObj [("error", VStr "Unauthorized: missing or invalid API key")]) /\
      executed req = []) /\
     (headers req !! "x-api-key" = Some key ->
      serve req = from_command_parameter u /\
      statusCode (res (serve req)) <> 401)) /\
  (env !! "ADMIN_API_KEY" = None \/ env !! "ADMIN_API_KEY" = Some "" ->
   serve req = from_command_parameter u).
Proof.
  intros Hm Hu Hp. split.
  - intros key He Hk. destruct (key_configured _ He Hk) as [Hreq Hadm].
    pose proof (key_rejected_iff req key Hadm Hk) as Hiff. split.
    + intros Hh. apply Hiff in Hh.
      unfold executed.
      rewrite (serve_cmd_reply _ _ _ _ (GET_not_OPTIONS _ Hm) Hu Hp
                 (cmd_route_unauthorized _ _ Hm Hreq Hh)).
      split; reflexivity.
    + intros Hh.
      assert (key_rejected env req = false) as Hpass.
      { apply not_true_is_false. intros Hrej. apply Hiff in Hrej. contradiction. }
      assert (serve req = from_command_parameter u) as Hs
        by (apply serve_from_command_parameter; auto; rewrite Hpass; apply andb_false_r).
      split; [exact Hs|]. rewrite Hs.
      pose proof (from_command_parameter_status u) as Hst.
      intros E. rewrite E in Hst.
      repeat (apply elem_of_cons in Hst as [Hst|Hst]; [discriminate|]).
      apply elem_of_nil in Hst. exact Hst.
  - intros He. apply serve_from_command_parameter; auto.
    rewrite key_not_configured by auto. reflexivity.
Qed.

(** C3, as amended. When an allowed command is run and the runner
    reports an error, the response is still 200, and its JSON body has
    the seven fields [command], [allowed: true], [error] (the error's
    message), [exitCode], [signal], [stdout] and [stderr]. [exitCode] is
    the code of the runner's error, or null: the exit status after a
    non-zero exit, null after a signal or a timeout, and the runner's
    code string [ERR_CHILD_PROCESS_STDIO_MAXBUFFER] after an overflow.
    [signal] is the signal after a signal or a timeout ([SIGTERM]), and
    null after a non-zero exit or an overflow. A timeout is the timer
    firing before the child's next move, an overflow a stream going
    over while the child is in time; each of the four kinds gives the
    callback an error. *)
Theorem failed_command_reply req u c cmd p :
  method req = "GET" ->
  new_URL (url req) (base req) = Normal u -> pathname u = "/cmd" ->
  REQUIRE_API_KEY env && key_rejected env req = false ->
  searchParams_get "command" (searchParams u) = Some c ->
  own ALLOWED_COMMANDS !! c = Some (VStr cmd) ->
  spawn cmd = Normal p ->
  (forall e out errs,
     run_child cmd exec_options p = (Some e, out, errs) ->
     res (serve req) =
       json_reply 200
         (VObj [ ("command", VStr c);
                 ("allowed", VBool true);
                 ("error", VStr (message e));
                 ("exitCode", js_or (code e) VNull);
                 ("signal", js_or (signal e) VNull);
                 ("stdout", VStr out);
                 ("stderr", VStr errs) ]) /\
     statusCode (res (serve req)) = 200 /\
     field_names (body (res (serve req))) =
       ["command"; "allowed"; "error"; "exitCode"; "signal"; "stdout"; "stderr"]) /\
  (forall chunks ends_at st,
     p = Ran chunks ends_at (Exited st) -> st <> 0%N ->
     writes_in_time exec_options chunks -> ends_at < 5000 ->
     byteLength (written Stdout chunks) <= 1048576 ->
     byteLength (written Stderr chunks) <= 1048576 ->
     statusCode (res (serve req)) = 200 /\
     field "exitCode" (body (res (serve req))) = Some (VNum (inject_Z (Z.of_N st))) /\
     field "signal" (body (res (serve req))) = Some VNull) /\
  (forall chunks ends_at sg,
     p = Ran chunks ends_at (Signalled sg) -> sg <> "" ->
     writes_in_time exec_options chunks -> ends_at < 5000 ->
     byteLength (written Stdout chunks) <= 1048576 ->
     byteLength (written Stderr chunks) <= 1048576 ->
     statusCode (res (serve req)) = 200 /\
     field "exitCode" (body (res (serve req))) = Some VNull /\
     field "signal" (body (res (serve req))) = Some (VStr sg)) /\
  (forall earlier later ends_at ending,
     p = Ran (earlier ++ later) ends_at ending ->
     writes_in_time exec_options earlier ->
     byteLength (written Stdout earlier) <= 1048576 ->
     byteLength (written Stderr earlier) <= 1048576 ->
     timer_first exec_options later ends_at ->
     statusCode (res (serve req)) = 200 /\
     field "exitCode" (body (res (serve req))) = Some VNull /\
     field "signal" (body (res (serve req))) = Some (VStr "SIGTERM")) /\
  (forall earlier later ends_at ending,
     p = Ran (earlier ++ later) ends_at ending ->
     writes_in_time exec_options earlier ->
     1048576 < byteLength (written Stdout earlier) \/
     1048576 < byteLength (written Stderr earlier) ->
     statusCode (res (serve req)) = 200 /\
     field "exitCode" (body (res (serve req))) =
       Some (VStr "ERR_CHILD_PROCESS_STDIO_MAXBUFFER") /\
     field "signal" (body (res (serve req))) = Some VNull) /\
  (forall chunks ends_at ending,
     p = Ran chunks ends_at ending ->
     (exists st, ending = Exited st /\ st <> 0%N) \/
     (exists sg, ending = Signalled sg) \/
     5000 <= ends_at \/
     1048576 < byteLength (written Stdout chunks) \/
     1048576 < byteLength (written Stderr chunks) ->
     exists e out errs, run_child cmd exec_options p = (Some e, out, errs)).
Proof.
  intros Hm Hu Hp Hk Hc Hown Hs.
  pose proof (serve_runs _ _ _ _ _ Hm Hu Hp Hk Hc Hown Hs) as Hserve.
  assert (forall e out errs vc vs,
            run_child cmd exec_options p = (Some e, out, errs) ->
            js_or (code e) VNull = vc -> js_or (signal e) VNull = vs ->
            statusCode (res (serve req)) = 200 /\
            field "exitCode" (body (res (serve req))) = Some vc /\
            field "signal" (body (res (serve req))) = Some vs) as Hkind.
  { intros e out errs vc vs Hr <- <-.
    destruct (run_child_error _ _ _ _ _ _ Hr) as [Hcode Hsig].
    rewrite Hserve, Hr. cbn [res]. split; [reflexivity|].
    apply exec_callback_codes; assumption. }
  split; [|split; [|split; [|split; [|split]]]].
  - intros e out errs Hr. rewrite Hserve, Hr.
    destruct (run_child_error _ _ _ _ _ _ Hr) as [Hcode Hsig].
    cbn [res exec_callback]. rewrite !stream_text_id, sendJson_cors.
    split; [reflexivity|]. split; [reflexivity|].
    cbn [json_reply reply body field_names json_fields].
    rewrite !filter_cons. cbn [snd serialisable].
    rewrite !decide_True by first [reflexivity | assumption].
    reflexivity.
  - intros chunks ends_at st -> Hst Hin Ht Ho He.
    destruct (run_child_nonzero cmd chunks ends_at st Hst Hin Ht Ho He)
      as (e & out & errs & Hr & Hcode & Hsig).
    apply (Hkind _ _ _ _ _ Hr Hcode Hsig).
  - intros chunks ends_at sg -> Hsg Hin Ht Ho He.
    destruct (run_child_signalled cmd chunks ends_at sg Hsg Hin Ht Ho He)
      as (e & out & errs & Hr & Hcode & Hsig).
    apply (Hkind _ _ _ _ _ Hr Hcode Hsig).
  - intros earlier later ends_at ending -> Hin Ho He Hlate.
    destruct (run_child_timed_out cmd earlier later ends_at ending Hin Ho He Hlate)
      as (e & out & errs & Hr & Hcode & Hsig).
    apply (Hkind _ _ _ _ _ Hr Hcode Hsig).
  - intros earlier later ends_at ending -> Hin Hover.
    destruct (run_child_overflowed cmd earlier later ends_at ending Hin Hover)
      as (e & out & errs & Hr & Hcode & Hsig).
    apply (Hkind _ _ _ _ _ Hr Hcode Hsig).
  - intros chunks ends_at ending -> Hkinds. apply run_child_failure.
    destruct Hkinds as [(st & -> & Hst)|[(sg & ->)|[Ht|[Ho|He]]]].
    + left. intros [= ->]. contradiction.
    + left. discriminate.
    + right; right; right. exact Ht.
    + right; left. exact Ho.
    + right; right; left. exact He.
Qed.


(** C5. The checks of the [/cmd] route come in this order, each one
    answering and ending the route: the method (anything but GET: 405),
    the key (401), the command parameter (absent or empty: 400), the
    registry (403). So a POST without a command is answered 405, and
    under a configured key a GET without header and without command is
    answered 401. *)
Theorem cmd_checks_in_order req u :
  (method req <> "GET" ->
   cmd_route req u = on_res (sendJson 405 (VObj [("error", VStr "Method not allowed. Use GET.")]))) /\
  (method req = "GET" ->
   REQUIRE_API_KEY env = true -> key_rejected env req = true ->
   cmd_route req u =
   on_res (sendJson 401 (VObj [("error", VStr "Unauthorized: missing or invalid API key")]))) /\
  (method req = "GET" ->
   REQUIRE_API_KEY env && key_rejected env req = false ->
   searchParams_get "command" (searchParams u) = None \/
   searchParams_get "command" (searchParams u) = Some "" ->
   cmd_route req u =
   on_res (sendJson 400
     (VObj [("error", VStr ("Missing " +:+ dquote +:+ "command" +:+ dquote +:+ " query parameter"))]))) /\
  (forall c,
   method req = "GET" ->
   REQUIRE_API_KEY env && key_rejected env req = false ->
   searchParams_get "command" (searchParams u) = Some c -> c <> "" ->
   hasOwnProperty ALLOWED_COMMANDS c = false ->
   cmd_route req u = on_res (sendJson 403 (VObj [("error", VStr "Command not allowed")]))) /\
  (new_URL (url req) (base req) = Normal u -> pathname u = "/cmd" ->
   (method req = "POST" ->
    searchParams_get "command" (searchParams u) = None ->
    serve req = answered (json_reply 405 (VObj [("error", VStr "Method not allowed. Use GET.")]))) /\
   (method req = "GET" ->
    REQUIRE_API_KEY env = true -> headers req !! "x-api-key" = None ->
    searchParams_get "command" (searchParams u) = None ->
    serve req =
    answered (json_reply 401 (VObj [("error", VStr "Unauthorized: missing or invalid API key")])))).
Proof.
  split; [apply cmd_route_not_GET|].
  split; [apply cmd_route_unauthorized|].
  split; [|split].
  - intros Hm Hk Hc. rewrite (cmd_route_pass _ _ Hm Hk).
    apply run_command_missing, Hc.
  - intros c Hm Hk Hc Hne Hown. rewrite (cmd_route_pass _ _ Hm Hk).
    rewrite (run_command_named _ _ Hc Hne). apply run_named_rejected, Hown.
  - intros Hu Hp. split.
    + intros Hm _.
      assert (method req <> "GET") as Hng by (rewrite Hm; discriminate).
      assert (method req <> "OPTIONS") as Hno by (rewrite Hm; discriminate).
      apply (serve_cmd_reply _ _ _ _ Hno Hu Hp (cmd_route_not_GET _ _ Hng)).
    + intros Hm Hreq Hh _.
      assert (key_rejected env req = true) as Hrej
        by (unfold key_rejected; rewrite Hh; reflexivity).
      apply (serve_cmd_reply _ _ _ _ (GET_not_OPTIONS _ Hm) Hu Hp
               (cmd_route_unauthorized _ _ Hm Hreq Hrej)).
Qed.

(** C6. A command that names a property the registry only inherits from
    [Object.prototype] ([toString], [constructor], [hasOwnProperty],
    [__proto__], ...) is found by [in] and by property access but not by
    [hasOwnProperty], which is what the handler asks: the request is
    answered 403 and nothing is spawned. *)
Theorem inherited_property_rejected req u c :
  method req = "GET" ->
  new_URL (url req) (base req) = Normal u -> pathname u = "/cmd" ->
  REQUIRE_API_KEY env && key_rejected env req = false ->
  searchParams_get "command" (searchParams u) = Some c ->
  is_Some (Object_prototype !! c) -> own ALLOWED_COMMANDS !! c = None ->
  js_in ALLOWED_COMMANDS c = true /\
  truthy (get_property ALLOWED_COMMANDS c) = true /\
  hasOwnProperty ALLOWED_COMMANDS c = false /\
  res (serve req) = json_reply 403 (VObj [("error", VStr "Command not allowed")]) /\
  executed req = [].
Proof.
  intros Hm Hu Hp Hk Hc Hin Hown.
  assert (c <> "") as Hne by (intros ->; destruct Hin as [v Hv]; vm_compute in Hv; discriminate).
  pose proof Hown as Hfalse. apply hasOwnProperty_false in Hfalse.
  split; [|split; [|split]].
  - unfold js_in. rewrite Hfalse. cbn [orb]. apply bool_decide_eq_true. exact Hin.
  - unfold get_property. rewrite Hown. cbn [proto ALLOWED_COMMANDS].
    destruct Hin as [v Hv]. rewrite Hv. cbn [default].
    unfold Object_prototype in Hv. apply elem_of_list_to_map_2 in Hv.
    repeat (apply elem_of_cons in Hv as [Hv|Hv]; [injection Hv as _ ->; reflexivity|]).
    apply elem_of_nil in Hv. contradiction.
  - exact Hfalse.
  - unfold executed.
    rewrite (serve_cmd_reply req u 403 (error_body "Command not allowed")
               (GET_not_OPTIONS _ Hm) Hu Hp).
    + split; reflexivity.
    + rewrite (cmd_route_pass _ _ Hm Hk), (run_command_named _ _ Hc Hne).
      apply run_named_rejected, Hfalse.
Qed.

(** C7. When an allowed command is run and the runner reports no error,
    the response is 200 and its JSON body has exactly the four fields
    [command] (the requested key), [allowed: true], [stdout] and [stderr]
    (the captured text, empty when nothing was captured), and no
    [error], [exitCode] or [signal]. *)
Theorem successful_command_reply req u c cmd p out errs :
  method req = "GET" ->
  new_URL (url req) (base req) = Normal u -> pathname u = "/cmd" ->
  REQUIRE_API_KEY env && key_rejected env req = false ->
  searchParams_get "command" (searchParams u) = Some c ->
  own ALLOWED_COMMANDS !! c = Some (VStr cmd) ->
  spawn cmd = Normal p ->
  run_child cmd exec_options p = (None, out, errs) ->
  res (serve req) =
    json_reply 200
      (VObj [ ("command", VStr c);
              ("allowed", VBool true);
              ("stdout", VStr out);
              ("stderr", VStr errs) ]) /\
  field_names (body (res (serve req))) = ["command"; "allowed"; "stdout"; "stderr"] /\
  field "error" (body (res (serve req))) = None /\
  field "exitCode" (body (res (serve req))) = None /\
  field "signal" (body (res (serve req))) = None.
Proof.
  intros Hm Hu Hp Hk Hc Hown Hs Hr.
  rewrite (serve_runs _ _ _ _ _ Hm Hu Hp Hk Hc Hown Hs), Hr.
  cbn [res exec_callback]. rewrite !stream_text_id, sendJson_cors.
  repeat split; reflexivity.
Qed.

(** C8. Whenever the [try] block throws, whatever the exception and
    wherever it was raised, the response is 500 with the JSON body
    [{error: "Internal server error"}]; the exception goes to the
    console and no part of it to the response. A URL the [URL]
    constructor rejects makes the block throw. *)
Theorem uncaught_failure_500 req :
  method req <> "OPTIONS" ->
  (forall e w,
     route req (answered cors_response) = (Throw e, w) ->
     res (serve req) =
       {| statusCode := 500;
          getHeaders := (cors_headers ++ [("Content-Type", "application/json")])%list;
          body := Json (VObj [("error", VStr "Internal server error")]);
          finished := true |} /\
     console (serve req) = [("Request handling error:", e)]) /\
  (forall e,
     new_URL (url req) (base req) = Throw e ->
     route req (answered cors_response) = (Throw e, answered cors_response)).
Proof.
  intros Hm. split.
  - intros e w Hr. unfold serve. rewrite handler_routed by done.
    unfold try_catch. rewrite Hr.
    destruct (route_throws _ _ _ _ Hr) as (Hres & Hcon & extra & Hcalls & Hextra).
    unfold recover, console_error, on_res, mbind, M_bind, settle_all.
    cbn [snd res exec_calls console]. rewrite Hres, Hcon, Hcalls.
    cbn [answered res exec_calls console app].
    rewrite (settle_never_started _ _ Hextra). split; reflexivity.
  - intros e He. apply route_malformed, He.
Qed.

(** C9. A request whose method is OPTIONS, whatever its path, headers or
    URL, is answered 200 with an empty body and the three CORS headers;
    the URL is not parsed, nothing is routed, checked, spawned or
    logged. *)
Theorem preflight_any_path req :
  method req = "OPTIONS" ->
  serve req =
  {| res := {| statusCode := 200;
               getHeaders :=
                 [ ("Access-Control-Allow-Origin", "*");
                   ("Access-Control-Allow-Methods", "GET, POST, OPTIONS");
                   ("Access-Control-Allow-Headers", "Content-Type, x-api-key") ];
               body := NoBody;
               finished := true |};
     exec_calls := [];
     console := [] |}.
Proof.
  intros Hm. unfold serve. rewrite (handler_OPTIONS _ Hm). reflexivity.
Qed.

(** C10. A request that is not a pre-flight and whose URL parses to a
    path other than [/], [/index.html], [/health] and [/cmd] is answered
    404 with content type text/plain and the body [Not Found]. *)
Theorem unknown_path_404 req u :
  method req <> "OPTIONS" ->
  new_URL (url req) (base req) = Normal u ->
  pathname u ∉ ["/"; "/index.html"; "/health"; "/cmd"] ->
  serve req =
  answered {| statusCode := 404;
              getHeaders := (cors_headers ++ [("Content-Type", "text/plain")])%list;
              body := Text "Not Found";
              finished := true |}.
Proof.
  intros Hm Hu Hp. unfold serve. rewrite handler_routed by done.
  unfold try_catch. rewrite (route_parsed _ _ _ Hu), (dispatch_unknown _ _ _ Hp).
  reflexivity.
Qed.

(** *** Every way a request ends *)

Lemma serve_home req u :
  method req <> "OPTIONS" ->
  new_URL (url req) (base req) = Normal u ->
  pathname u = "/" \/ pathname u = "/index.html" ->
  serve req = answered (reply 200 "text/html" (Html (home_page env node))).
Proof.
  intros Hm Hu Hp. unfold serve. rewrite handler_routed by done.
  unfold try_catch. rewrite (route_parsed _ _ _ Hu). unfold dispatch.
  destruct Hp as [-> | ->]; reflexivity.
Qed.

Lemma serve_health req u :
  method req <> "OPTIONS" ->
  new_URL (url req) (base req) = Normal u ->
  pathname u = "/health" ->
  serve req =
  answered (json_reply 200
    (VObj [ ("status", VStr "healthy");
            ("timestamp", VStr (now_iso node));
            ("uptime_seconds", VNum (uptime node)) ])).
Proof.
  intros Hm Hu Hp. unfold serve. rewrite handler_routed by done.
  unfold try_catch. rewrite (route_parsed _ _ _ Hu). unfold dispatch.
  rewrite Hp. reflexivity.
Qed.

Lemma serve_not_found req u :
  method req <> "OPTIONS" ->
  new_URL (url req) (base req) = Normal u ->
  pathname u ∉ ["/"; "/index.html"; "/health"; "/cmd"] ->
  serve req = answered (reply 404 "text/plain" (Text "Not Found")).
Proof.
  intros Hm Hu Hp. unfold serve. rewrite handler_routed by done.
  unfold try_catch. rewrite (route_parsed _ _ _ Hu), (dispatch_unknown _ _ _ Hp).
  reflexivity.
Qed.

Lemma serve_bad_url req e :
  method req <> "OPTIONS" ->
  new_URL (url req) (base req) = Throw e ->
  serve req = crashed [] e.
Proof.
  intros Hm Hu. unfold serve. rewrite handler_routed by done.
  unfold try_catch. rewrite (route_malformed _ _ _ Hu). reflexivity.
Qed.

Lemma serve_spawn_threw req u c cmd e :
  admitted req u ->
  searchParams_get "command" (searchParams u) = Some c ->
  own ALLOWED_COMMANDS !! c = Some (VStr cmd) ->
  spawn cmd = Throw e ->
  serve req = crashed [the_call c cmd] e.
Proof.
  intros (Hm & Hu & Hp & Hk) Hc Hown Hs.
  assert (c <> "") as Hne.
  { intros ->. apply registry_own in Hown.
    destruct Hown as [[? _]|[[? _]|[? _]]]; discriminate. }
  rewrite (serve_from_command_parameter _ _ Hm Hu Hp Hk).
  unfold from_command_parameter, try_catch.
  rewrite (run_command_named _ _ Hc Hne), (run_named_allowed _ _ Hown).
  unfold exec, crashed, the_call. rewrite Hs.
  unfold recover, console_error, on_res, mbind, M_bind, settle_all.
  cbn [snd res exec_calls console answered app fold_left].
  unfold settle. cbn [call_child]. reflexivity.
Qed.

Lemma pathname_unknown p :
  p <> "/" -> p <> "/index.html" -> p <> "/health" -> p <> "/cmd" ->
  p ∉ ["/"; "/index.html"; "/health"; "/cmd"].
Proof.
  intros H1 H2 H3 H4 Hin.
  repeat (apply elem_of_cons in Hin as [Hin|Hin]; [contradiction|]).
  apply elem_of_nil in Hin. exact Hin.
Qed.

(** The handler ends in one of the eleven ways of [outcome]. *)
Lemma serve_outcome req : outcome req (serve req).
Proof.
  destruct (decide (method req = "OPTIONS")) as [Hm|Hm].
  { assert (serve req = answered preflight_reply) as ->
      by (unfold serve; rewrite (handler_OPTIONS _ Hm); reflexivity).
    apply out_preflight, Hm. }
  destruct (new_URL (url req) (base req)) as [u|e] eqn:Hu.
  2: { rewrite (serve_bad_url _ _ Hm Hu). apply out_bad_url; assumption. }
  destruct (decide (pathname u = "/")) as [Hp1|Hp1].
  { rewrite (serve_home _ _ Hm Hu (or_introl Hp1)). eapply out_home; eauto. }
  destruct (decide (pathname u = "/index.html")) as [Hp2|Hp2].
  { rewrite (serve_home _ _ Hm Hu (or_intror Hp2)). eapply out_home; eauto. }
  destruct (decide (pathname u = "/health")) as [Hp3|Hp3].
  { rewrite (serve_health _ _ Hm Hu Hp3). eapply out_health; eauto. }
  destruct (decide (pathname u = "/cmd")) as [Hp|Hp4].
  2: { pose proof (pathname_unknown _ Hp1 Hp2 Hp3 Hp4) as Hp.
       rewrite (serve_not_found _ _ Hm Hu Hp). eapply out_not_found; eauto. }
  destruct (decide (method req = "GET")) as [Hg|Hg].
  2: { rewrite (serve_cmd_reply _ _ _ _ Hm Hu Hp (cmd_route_not_GET _ _ Hg)).
       eapply out_method; eauto. }
  destruct (REQUIRE_API_KEY env && key_rejected env req) eqn:Hk.
  { apply andb_true_iff in Hk as [Hreq Hrej].
    rewrite (serve_cmd_reply _ _ _ _ Hm Hu Hp (cmd_route_unauthorized _ _ Hg Hreq Hrej)).
    eapply out_key; eauto. }
  assert (admitted req u) as Hadm by (repeat split; assumption).
  assert (forall status obj,
            run_command u = on_res (sendJson status obj) ->
            serve req = answered (json_reply status obj)) as Hreply.
  { intros status obj Hrun. apply (serve_cmd_reply _ _ _ _ Hm Hu Hp).
    rewrite (cmd_route_pass _ _ Hg Hk). exact Hrun. }
  destruct (searchParams_get "command" (searchParams u)) as [c|] eqn:Hc.
  2: { rewrite (Hreply _ _ (run_command_missing u (or_introl Hc))).
       eapply out_missing; eauto. }
  destruct (decide (c = "")) as [->|Hne].
  { rewrite (Hreply _ _ (run_command_missing u (or_intror Hc))).
    eapply out_missing; eauto. }
  destruct (own ALLOWED_COMMANDS !! c) as [v|] eqn:Hown.
  2: { assert (run_command u = on_res (sendJson 403 (error_body "Command not allowed"))) as Hrun.
       { rewrite (run_command_named _ _ Hc Hne).
         apply run_named_rejected, hasOwnProperty_false, Hown. }
       rewrite (Hreply _ _ Hrun). eapply out_forbidden; eauto. }
  destruct (registry_shell_command _ _ Hown) as (cmd & -> & _).
  destruct (spawn cmd) as [p|e] eqn:Hs.
  - rewrite (serve_runs _ _ _ _ _ Hg Hu Hp Hk Hc Hown Hs).
    pose proof (out_ran env node new_URL spawn req u c cmd p Hadm Hc Hown Hs) as Hout.
    unfold the_call in Hout. rewrite Hs in Hout. exact Hout.
  - rewrite (serve_spawn_threw _ _ _ _ _ Hadm Hc Hown Hs).
    eapply out_spawn_threw; eauto.
Qed.

Ltac listed := rewrite !elem_of_cons; repeat (first [left; reflexivity | right]).

Lemma exec_callback_reply c r :
  exists obj, exec_callback c r cors_response = json_reply 200 obj.
Proof.
  destruct r as [[[e|] out] errs]; cbn [exec_callback];
    rewrite sendJson_cors; eexists; reflexivity.
Qed.

(** *** Further properties of the handler *)

(** X1. The home page. A request that is not a pre-flight and whose
    path is [/] or [/index.html] is answered 200, text/html, with the
    page instantiated at the runtime's version, the configured port, the
    platform and the uptime rounded down to whole seconds, whatever the
    method, the headers and the API key; nothing is spawned or
    logged. *)
Theorem home_page_served req u :
  method req <> "OPTIONS" ->
  new_URL (url req) (base req) = Normal u ->
  pathname u = "/" \/ pathname u = "/index.html" ->
  serve req =
    answered
      {| statusCode := 200;
         getHeaders := (cors_headers ++ [("Content-Type", "text/html")])%list;
         body := Html {| page_version := version node;
                         page_port := PORT env;
                         page_platform := platform node;
                         page_uptime := Qfloor (uptime node) |};
         finished := true |} /\
  (inject_Z (Qfloor (uptime node)) <= uptime node < inject_Z (Qfloor (uptime node) + 1))%Q.
Proof.
  intros Hm Hu Hp. split.
  - apply (serve_home _ _ Hm Hu Hp).
  - split; [apply Qfloor_le | apply Qlt_floor].
Qed.

(** X2. The health probe. A request that is not a pre-flight and whose
    path is [/health] is answered 200 with the JSON fields [status]
    ("healthy"), [timestamp] and [uptime_seconds] (the uptime itself,
    not rounded), whatever the method, the headers and the API key;
    nothing is spawned or logged. *)
Theorem health_served req u :
  method req <> "OPTIONS" ->
  new_URL (url req) (base req) = Normal u ->
  pathname u = "/health" ->
  serve req =
    answered (json_reply 200
      (VObj [ ("status", VStr "healthy");
              ("timestamp", VStr (now_iso node));
              ("uptime_seconds", VNum (uptime node)) ])) /\
  field_names (body (res (serve req))) = ["status"; "timestamp"; "uptime_seconds"].
Proof.
  intros Hm Hu Hp. rewrite (serve_health _ _ Hm Hu Hp). split; reflexivity.
Qed.

(** X3. The responses there are. Every response is the pre-flight
    reply, the home page (200, text/html), a JSON reply with status 200,
    a JSON reply with status 400, 401, 403, 405 or 500 whose body is
    exactly [{error: <message>}], or the 404 text reply. *)
Theorem response_table req :
  res (serve req) = preflight_reply \/
  (exists page, res (serve req) = reply 200 "text/html" (Html page)) \/
  (exists obj, res (serve req) = json_reply 200 obj) \/
  (exists status msg,
     status ∈ [400; 401; 403; 405; 500] /\
     res (serve req) = json_reply status (VObj [("error", VStr msg)])) \/
  res (serve req) = reply 404 "text/plain" (Text "Not Found").
Proof.
  destruct (serve_outcome req); cbn [res answered crashed].
  - left. reflexivity.
  - do 3 right. left. exists 500, "Internal server error". split; [listed | reflexivity].
  - right. left. eexists. reflexivity.
  - do 2 right. left. eexists. reflexivity.
  - do 4 right. reflexivity.
  - do 3 right. left. eexists 405, _. split; [listed | reflexivity].
  - do 3 right. left. eexists 401, _. split; [listed | reflexivity].
  - do 3 right. left. eexists 400, _. split; [listed | reflexivity].
  - do 3 right. left. eexists 403, _. split; [listed | reflexivity].
  - do 3 right. left. exists 500, "Internal server error". split; [listed | reflexivity].
  - do 2 right. left. apply exec_callback_reply.
Qed.

(** X4. Every response, the error replies and the 500 included, is
    finished and carries the three CORS headers first, in the order they
    were set. *)
Theorem cors_on_every_response req :
  finished (res (serve req)) = true /\
  take 3 (getHeaders (res (serve req))) =
    [ ("Access-Control-Allow-Origin", "*");
      ("Access-Control-Allow-Methods", "GET, POST, OPTIONS");
      ("Access-Control-Allow-Headers", "Content-Type, x-api-key") ].
Proof.
  destruct (serve_outcome req); cbn [res answered crashed];
    try (split; reflexivity).
  destruct (exec_callback_reply c (run_child cmd exec_options p)) as [obj ->].
  split; reflexivity.
Qed.

(** X5. What is ever spawned. A request makes no call of [exec], or
    exactly one: then it is a GET to [/cmd] that passed the key check,
    its command is a key of the registry, and the call runs the shell
    command the registry maps the key to, with the options of line 126
    and the callback for that key. *)
Theorem exec_only_when_admitted req :
  exec_calls (serve req) = [] \/
  exists u c cmd,
    method req = "GET" /\
    new_URL (url req) (base req) = Normal u /\ pathname u = "/cmd" /\
    REQUIRE_API_KEY env && key_rejected env req = false /\
    searchParams_get "command" (searchParams u) = Some c /\
    own ALLOWED_COMMANDS !! c = Some (VStr cmd) /\
    exec_calls (serve req) =
      [ {| call_command := cmd;
           call_options := {| timeout := 5000; maxBuffer := 1048576 |};
           call_child := spawn cmd;
           call_callback := exec_callback c |} ].
Proof.
  destruct (serve_outcome req) as
    [ | | | | | | | | | u c cmd e (Hg & Hu & Hp & Hk) Hc Hown Hs
      | u c cmd p (Hg & Hu & Hp & Hk) Hc Hown Hs ];
    try (left; reflexivity); right; exists u, c, cmd; repeat split; assumption.
Qed.

(** X6. The console and the 500. Either nothing is logged and the
    status is not 500, or exactly one exception is logged, under the
    label of line 158, and the status is 500. *)
Theorem logged_iff_500 req :
  (console (serve req) = [] /\ statusCode (res (serve req)) <> 500) \/
  (exists e, console (serve req) = [("Request handling error:", e)] /\
             statusCode (res (serve req)) = 500).
Proof.
  destruct (serve_outcome req); cbn [res console answered crashed];
    try (left; split; [reflexivity | discriminate]);
    try (right; eexists; split; reflexivity).
  left. split; [reflexivity|]. rewrite exec_callback_status. discriminate.
Qed.

(** X7. What each error status tells. 405: the path was [/cmd] and the
    method was not GET. 401: a key is required and the GET request to
    [/cmd] did not bring it. 404: the URL parsed to a path outside the
    four routes. 400: the request was admitted to [/cmd] and its command
    was absent or empty. 403: it was admitted and its command is not a
    key of the registry. 500: the URL was rejected, or [spawn] threw for
    an admitted request with a registry command. *)
Theorem status_meaning req :
  (statusCode (res (serve req)) = 405 ->
   method req <> "GET" /\
   exists u, new_URL (url req) (base req) = Normal u /\ pathname u = "/cmd") /\
  (statusCode (res (serve req)) = 401 ->
   method req = "GET" /\ REQUIRE_API_KEY env = true /\ key_rejected env req = true /\
   exists u, new_URL (url req) (base req) = Normal u /\ pathname u = "/cmd") /\
  (statusCode (res (serve req)) = 404 ->
   exists u, new_URL (url req) (base req) = Normal u /\
             pathname u ∉ ["/"; "/index.html"; "/health"; "/cmd"]) /\
  (statusCode (res (serve req)) = 400 ->
   exists u, admitted req u /\
             (searchParams_get "command" (searchParams u) = None \/
              searchParams_get "command" (searchParams u) = Some "")) /\
  (statusCode (res (serve req)) = 403 ->
   exists u c, admitted req u /\
               searchParams_get "command" (searchParams u) = Some c /\
               own ALLOWED_COMMANDS !! c = None) /\
  (statusCode (res (serve req)) = 500 ->
   (exists e, new_URL (url req) (base req) = Throw e) \/
   (exists u c cmd e, admitted req u /\
                      searchParams_get "command" (searchParams u) = Some c /\
                      own ALLOWED_COMMANDS !! c = Some (VStr cmd) /\
                      spawn cmd = Throw e)).
Proof.
  destruct (serve_outcome req); cbn [res answered crashed];
    rewrite ?exec_callback_status;
    repeat match goal with |- _ /\ _ => split end;
    intros Hst; try discriminate Hst; eauto 10.
Qed.

(** X8. When the key check is on. [REQUIRE_API_KEY] is true exactly
    when [ADMIN_API_KEY] was set to a non-empty string, and exactly when
    the expected key is not empty. A request without the header, or with
    an empty one, never passes the test of line 105; and when the check
    is on, a request passes it only with a header equal to the key of
    the environment. *)
Theorem key_check_is_on_iff :
  (REQUIRE_API_KEY env = true <->
   exists key, env !! "ADMIN_API_KEY" = Some key /\ key <> "") /\
  (REQUIRE_API_KEY env = true <-> ADMIN_API_KEY env <> "") /\
  (forall req,
     headers req !! "x-api-key" = None \/ headers req !! "x-api-key" = Some "" ->
     key_rejected env req = true) /\
  (forall req,
     REQUIRE_API_KEY env = true -> key_rejected env req = false ->
     env !! "ADMIN_API_KEY" = Some (ADMIN_API_KEY env) /\
     headers req !! "x-api-key" = Some (ADMIN_API_KEY env)).
Proof.
  assert (REQUIRE_API_KEY env = true ->
          exists key, env !! "ADMIN_API_KEY" = Some key /\ key <> "") as Hon.
  { unfold REQUIRE_API_KEY. destruct (env !! "ADMIN_API_KEY") as [key|]; [|discriminate].
    intros Ht. exists key. split; [reflexivity|]. apply truthy_string, Ht. }
  split; [|split; [|split]].
  - split; [exact Hon|]. intros (key & He & Hk). apply (key_configured _ He Hk).
  - split.
    + intros Ht. destruct (Hon Ht) as (key & He & Hk).
      destruct (key_configured _ He Hk) as [_ ->]. exact Hk.
    + intros Hne. destruct (REQUIRE_API_KEY env) eqn:Hr; [reflexivity|].
      exfalso. apply Hne. unfold REQUIRE_API_KEY in Hr. unfold ADMIN_API_KEY, str_or, js_or.
      destruct (env !! "ADMIN_API_KEY") as [key|]; [|reflexivity].
      cbn [of_option] in *. rewrite Hr. reflexivity.
  - intros req [Hh|Hh]; unfold key_rejected; rewrite Hh; reflexivity.
  - intros req Ht Hpass. destruct (Hon Ht) as (key & He & Hk).
    destruct (key_configured _ He Hk) as [_ Hadm]. rewrite Hadm. split; [exact He|].
    destruct (decide (headers req !! "x-api-key" = Some key)) as [Hh|Hh]; [exact Hh|].
    apply (key_rejected_iff req key Hadm Hk) in Hh. congruence.
Qed.

(** X9. The port. [PORT] is the number 80 when the variable is unset or
    empty, and otherwise the variable's string as it is (so "0" stays
    "0"); it is never falsy. *)
Theorem port_default :
  (env !! "PORT" = None \/ env !! "PORT" = Some "" -> PORT env = VNum 80) /\
  (forall p, env !! "PORT" = Some p -> p <> "" -> PORT env = VStr p) /\
  truthy (PORT env) = true.
Proof.
  unfold PORT, js_or. split; [|split].
  - intros [-> | ->]; reflexivity.
  - intros p -> Hp. apply truthy_string in Hp. cbn [of_option]. rewrite Hp. reflexivity.
  - destruct (truthy (of_option (env !! "PORT"))) eqn:Ht; [exact Ht | reflexivity].
Qed.

(** X10. An exception of [spawn]. When an admitted request names a
    registry key and [spawn] throws on the spot, the exception is caught:
    the response is the fixed 500, the exception is logged, the call is
    on record with the mapped command, and its callback never runs. *)
Theorem spawn_exception_is_500 req u c cmd e :
  method req = "GET" ->
  new_URL (url req) (base req) = Normal u -> pathname u = "/cmd" ->
  REQUIRE_API_KEY env && key_rejected env req = false ->
  searchParams_get "command" (searchParams u) = Some c ->
  own ALLOWED_COMMANDS !! c = Some (VStr cmd) ->
  spawn cmd = Throw e ->
  serve req =
  {| res := json_reply 500 (VObj [("error", VStr "Internal server error")]);
     exec_calls := [ {| call_command := cmd; call_options := exec_options;
                        call_child := Throw e; call_callback := exec_callback c |} ];
     console := [("Request handling error:", e)] |}.
Proof.
  intros Hg Hu Hp Hk Hc Hown Hs.
  rewrite (serve_spawn_threw req u c cmd e) by (repeat split; assumption).
  unfold crashed, the_call. rewrite Hs. reflexivity.
Qed.

(** X12. The [command] of a reply. A reply that has a [command] field
    has status 200, says [allowed: true], and its [command] is one of
    the keys [uptime], [disk], [memory]: the key that was asked for, not
    the shell command. *)
Theorem command_field_names_a_key req v :
  field "command" (body (res (serve req))) = Some v ->
  statusCode (res (serve req)) = 200 /\
  field "allowed" (body (res (serve req))) = Some (VBool true) /\
  exists u c,
    v = VStr c /\ c ∈ ["uptime"; "disk"; "memory"] /\
    new_URL (url req) (base req) = Normal u /\
    searchParams_get "command" (searchParams u) = Some c.
Proof.
  destruct (serve_outcome req) as
    [ | | | | | | | | | | u c cmd p (Hg & Hu & Hp & Hk) Hc Hown Hs ];
    cbn [res answered crashed];
    [ intros Hf; vm_compute in Hf; discriminate Hf .. | ].
  assert (c ∈ ["uptime"; "disk"; "memory"]) as Hin
    by (apply hasOwnProperty_registry, hasOwnProperty_true; eauto).
  rewrite exec_callback_status.
  destruct (run_child cmd exec_options p) as [[[err|] out] errs];
    cbn [exec_callback]; rewrite sendJson_cors;
    intros [= <-]; (split; [reflexivity|]); (split; [reflexivity|]);
    exists u, c; auto.
Qed.

End Properties.

(** * Concrete runs *)

(** ** A child that is noisy on both streams *)

Lemma byteLength_iter n c : byteLength (N.iter n (String c) "") = Z.of_N n.
Proof.
  induction n as [|n IH] using N.peano_ind; [reflexivity|].
  rewrite N.iter_succ. unfold byteLength in *. cbn [String.length].
  rewrite Nat2Z.inj_succ, IH. lia.
Qed.





(** ** A child that floods stdout *)

Lemma flooding_in_time : writes_in_time exec_options flooding_chunks.
Proof. unfold writes_in_time, flooding_chunks. repeat constructor. Qed.

Lemma flooding_written : written Stdout flooding_chunks = flood.
Proof.
  unfold flooding_chunks. cbn [written stream data]. apply append_empty_r.
Qed.

Lemma byteLength_flood : byteLength flood = 1048577.
Proof. unfold flood. rewrite byteLength_iter. reflexivity. Qed.

(** C3, as stated, fails at the overflow: the child above overflowed
    stdout, and in the reply to [GET /cmd?command=disk] the [exitCode]
    is the runner's code string, which is neither an exit code nor
    null. *)
Lemma overflow_exit_code_counterexample :
  let w := serve open_env example_node plain_URL flooding_os (get "/cmd?command=disk" []) in
  1048576 < byteLength (written Stdout flooding_chunks) /\
  statusCode (res w) = 200 /\
  field "exitCode" (body (res w)) = Some (VStr "ERR_CHILD_PROCESS_STDIO_MAXBUFFER") /\
  field "exitCode" (body (res w)) <> Some VNull /\
  (forall n, field "exitCode" (body (res w)) <> Some (VNum n)) /\
  field "signal" (body (res w)) = Some VNull.
Proof.
  intros w. subst w.
  assert (1048576 < byteLength (written Stdout flooding_chunks)) as Hover
    by (rewrite flooding_written, byteLength_flood; lia).
  split; [exact Hover|].
  rewrite (serve_runs open_env example_node plain_URL flooding_os
             (get "/cmd?command=disk" []) (cmd_url "disk")
             "disk" "df -h" flooding_child
             eq_refl eq_refl eq_refl eq_refl eq_refl eq_refl eq_refl).
  destruct (run_child_overflowed "df -h" flooding_chunks [] 2 (Exited 0)
              flooding_in_time (or_introl Hover))
    as (e & out & errs & Hr & Hcode & Hsig).
  rewrite app_nil_r in Hr.
  unfold flooding_child. rewrite Hr. cbn [res].
  destruct (run_child_error _ _ _ _ _ _ Hr) as [Hc Hs].
  destruct (exec_callback_codes "disk" e out errs cors_response Hc Hs) as [Hexit Hsignal].
  rewrite Hexit, Hsignal, Hcode, Hsig.
  split; [apply exec_callback_status|].
  split; [reflexivity|]. split; [discriminate|]. split; [discriminate|reflexivity].
Qed.

(** ** The runner on small inputs *)

Example runner_clean_exit :
  run_child "true" tiny (Ran [says 1 Stdout "ok"; says 2 Stderr "hm"] 3 (Exited 0)) =
  (None, "ok", "hm").
Proof. reflexivity. Qed.

Example runner_nonzero_exit :
  run_child "false" tiny (Ran [says 1 Stderr "no"] 3 (Exited 2)) =
  (Some {| message := "Command failed: false" +:+ newline +:+ "no";
           code := VNum 2; signal := VNull; killed := VBool false |}, "", "no").
Proof. reflexivity. Qed.

Example runner_signal :
  run_child "cat" tiny (Ran [] 3 (Signalled "SIGKILL")) =
  (Some {| message := "Command failed: cat" +:+ newline;
           code := VNull; signal := VStr "SIGKILL"; killed := VBool false |}, "", "").
Proof. reflexivity. Qed.

Example runner_timeout :
  run_child "sleep 1" tiny (Ran [says 1 Stdout "zz"; says 60 Stdout "zz"] 1000 (Exited 0)) =
  (Some {| message := "Command failed: sleep 1" +:+ newline;
           code := VNull; signal := VStr "SIGTERM"; killed := VBool true |}, "zz", "").
Proof. reflexivity. Qed.

Example runner_overflow :
  run_child "yes" tiny (Ran [says 1 Stdout "yy"; says 2 Stdout "yyyy"; says 3 Stdout "y"] 9 (Exited 0)) =
  (Some {| message := "stdout maxBuffer length exceeded";
           code := VStr "ERR_CHILD_PROCESS_STDIO_MAXBUFFER";
           signal := VUndefined; killed := VUndefined |}, "yyyy", "").
Proof. reflexivity. Qed.

(** The chunk that goes over is cut by UTF-16 units, not by bytes: of
    six two-byte characters under a limit of 4 bytes, four are kept,
    which are 8 bytes. *)
Example runner_overflow_units :
  run_child "printf" tiny
    (Ran [says 1 Stdout (e_acute +:+ e_acute +:+ e_acute +:+ e_acute +:+ e_acute +:+ e_acute)]
       9 (Exited 0)) =
  (Some {| message := "stdout maxBuffer length exceeded";
           code := VStr "ERR_CHILD_PROCESS_STDIO_MAXBUFFER";
           signal := VUndefined; killed := VUndefined |},
   e_acute +:+ e_acute +:+ e_acute +:+ e_acute, "").
Proof. reflexivity. Qed.

(** A cut between the two units of a character leaves its first half. *)
Example runner_overflow_half :
  run_child "printf" tiny (Ran [says 1 Stdout ("abc" +:+ grinning_face)] 9 (Exited 0)) =
  (Some {| message := "stdout maxBuffer length exceeded";
           code := VStr "ERR_CHILD_PROCESS_STDIO_MAXBUFFER";
           signal := VUndefined; killed := VUndefined |},
   "abc" +:+ half_face, "").
Proof. reflexivity. Qed.

Example slice_units :
  slice 2 ("a" +:+ e_acute +:+ "b") = "a" +:+ e_acute /\
  slice 3 ("a" +:+ grinning_face +:+ "b") = "a" +:+ grinning_face /\
  slice 2 ("a" +:+ grinning_face +:+ "b") = "a" +:+ half_face /\
  slice 9 "abc" = "abc" /\
  slice 0 "abc" = "".
Proof. repeat split; reflexivity. Qed.

(** Each stream has its own counter: 3 + 3 bytes pass a limit of 4. *)
Example runner_two_streams :
  run_child "both" tiny (Ran [says 1 Stdout "abc"; says 2 Stderr "def"] 3 (Exited 0)) =
  (None, "abc", "def").
Proof. reflexivity. Qed.

(** ** Requests *)

Ltac not_listed :=
  let H := fresh in
  intros H; repeat (apply elem_of_cons in H as [H|H]; [discriminate H|]);
  apply elem_of_nil in H; exact H.

Example uptime_open :
  res (serve open_env example_node plain_URL example_os (get "/cmd?command=uptime" [])) =
  json_reply 200
    (VObj [ ("command", VStr "uptime"); ("allowed", VBool true);
            ("stdout", VStr (" 10:00:00 up 1 day" +:+ newline)); ("stderr", VStr "") ]).
Proof. reflexivity. Qed.

Example uptime_wrong_case :
  statusCode (res (serve open_env example_node plain_URL example_os
                     (get "/cmd?command=Uptime" []))) = 403.
Proof. reflexivity. Qed.

Example unknown_command :
  statusCode (res (serve open_env example_node plain_URL example_os
                     (get "/cmd?command=doesnotexist" []))) = 403.
Proof. reflexivity. Qed.

Example post_cmd :
  statusCode (res (serve open_env example_node plain_URL example_os
                     (post "/cmd?command=uptime"))) = 405.
Proof. reflexivity. Qed.

Example secret_without_header :
  statusCode (res (serve secret_env example_node plain_URL example_os
                     (get "/cmd?command=uptime" []))) = 401.
Proof. reflexivity. Qed.

Example secret_wrong_header :
  statusCode (res (serve secret_env example_node plain_URL example_os
                     (get "/cmd?command=uptime" [("x-api-key", "wrong")]))) = 401.
Proof. reflexivity. Qed.

Example secret_right_header :
  statusCode (res (serve secret_env example_node plain_URL example_os
                     (get "/cmd?command=uptime" [("x-api-key", "secret")]))) = 200.
Proof. reflexivity. Qed.

Example spawn_throws :
  serve open_env example_node plain_URL broken_os (get "/cmd?command=memory" []) =
  {| res := json_reply 500 (VObj [("error", VStr "Internal server error")]);
     exec_calls := [ {| call_command := "free -m"; call_options := exec_options;
                        call_child := broken_os "free -m";
                        call_callback := exec_callback "memory" |} ];
     console := [ ("Request handling error:",
                   {| exn_name := "Error"; exn_message := "spawn ENOMEM" |}) ] |}.
Proof. reflexivity. Qed.

Example timeout_reply :
  body (res (serve open_env example_node plain_URL slow_os (get "/cmd?command=disk" []))) =
  Json (VObj [ ("command", VStr "disk"); ("allowed", VBool true);
               ("error", VStr ("Command failed: df -h" +:+ newline));
               ("exitCode", VNull); ("signal", VStr "SIGTERM");
               ("stdout", VStr ""); ("stderr", VStr "") ]).
Proof. reflexivity. Qed.

(** ** The claims at concrete requests *)

Lemma preflight_any_path_witness :
  let req := {| method := "OPTIONS"; url := "//"; headers := ∅ |} in
  method req = "OPTIONS" /\
  serve secret_env example_node plain_URL example_os req = answered preflight_reply.
Proof.
  split; [reflexivity|].
  apply (preflight_any_path secret_env example_node plain_URL example_os). reflexivity.
Defined.

Lemma unknown_path_404_witness :
  serve open_env example_node plain_URL example_os (get "/nope" []) =
  answered (reply 404 "text/plain" (Text "Not Found")).
Proof.
  apply (unknown_path_404 open_env example_node plain_URL example_os
           (get "/nope" []) {| pathname := "/nope"; searchParams := [] |}).
  - discriminate.
  - reflexivity.
  - not_listed.
Defined.

Lemma uncaught_failure_500_witness :
  let w := serve open_env example_node plain_URL example_os (get "//" []) in
  res w = json_reply 500 (VObj [("error", VStr "Internal server error")]) /\
  console w = [("Request handling error:", invalid_URL)].
Proof.
  destruct (uncaught_failure_500 open_env example_node plain_URL example_os
              (get "//" []) ltac:(discriminate)) as [Hcaught Hurl].
  apply (Hcaught invalid_URL (answered cors_response)).
  apply Hurl. reflexivity.
Defined.

Lemma api_key_gate_witness :
  (let req := get "/cmd?command=uptime" [("x-api-key", "wrong")] in
   statusCode (res (serve secret_env example_node plain_URL example_os req)) = 401 /\
   executed secret_env example_node plain_URL example_os req = []) /\
  (let req := get "/cmd?command=uptime" [("x-api-key", "secret")] in
   statusCode (res (serve secret_env example_node plain_URL example_os req)) <> 401) /\
  (let req := get "/cmd?command=uptime" [("x-api-key", "anything")] in
   serve open_env example_node plain_URL example_os req =
   from_command_parameter example_os (cmd_url "uptime")).
Proof.
  split; [|split]; intros req.
  - destruct (api_key_gate secret_env example_node plain_URL example_os
                req (cmd_url "uptime") eq_refl eq_refl eq_refl) as [Hkey _].
    destruct (Hkey "secret" eq_refl ltac:(discriminate)) as [Hbad _].
    destruct Hbad as [Hres Hnone]; [discriminate|].
    rewrite Hres. split; [reflexivity | exact Hnone].
  - destruct (api_key_gate secret_env example_node plain_URL example_os
                req (cmd_url "uptime") eq_refl eq_refl eq_refl) as [Hkey _].
    destruct (Hkey "secret" eq_refl ltac:(discriminate)) as [_ Hgood].
    exact (proj2 (Hgood eq_refl)).
  - destruct (api_key_gate open_env example_node plain_URL example_os
                req (cmd_url "uptime") eq_refl eq_refl eq_refl) as [_ Hopen].
    exact (Hopen (or_introl eq_refl)).
Defined.

Lemma cmd_checks_in_order_witness :
  cmd_route secret_env example_os (post "/cmd") (cmd_url "uptime") =
    on_res (sendJson 405 (VObj [("error", VStr "Method not allowed. Use GET.")])) /\
  cmd_route secret_env example_os (get "/cmd" []) {| pathname := "/cmd"; searchParams := [] |} =
    on_res (sendJson 401 (VObj [("error", VStr "Unauthorized: missing or invalid API key")])) /\
  cmd_route open_env example_os (get "/cmd?command=" []) (cmd_url "") =
    on_res (sendJson 400
      (VObj [("error", VStr ("Missing " +:+ dquote +:+ "command" +:+ dquote +:+ " query parameter"))])) /\
  cmd_route open_env example_os (get "/cmd?command=reboot" []) (cmd_url "reboot") =
    on_res (sendJson 403 (VObj [("error", VStr "Command not allowed")])) /\
  statusCode (res (serve secret_env example_node plain_URL example_os (post "/cmd"))) = 405 /\
  statusCode (res (serve secret_env example_node plain_URL example_os (get "/cmd" []))) = 401.
Proof.
  split; [|split; [|split; [|split; [|split]]]].
  - destruct (cmd_checks_in_order secret_env example_node plain_URL example_os
                (post "/cmd") (cmd_url "uptime")) as (Hmethod & _).
    apply Hmethod. discriminate.
  - destruct (cmd_checks_in_order secret_env example_node plain_URL example_os
                (get "/cmd" []) {| pathname := "/cmd"; searchParams := [] |})
      as (_ & Hkey & _).
    apply Hkey; reflexivity.
  - destruct (cmd_checks_in_order open_env example_node plain_URL example_os
                (get "/cmd?command=" []) (cmd_url "")) as (_ & _ & Hparam & _).
    apply Hparam; [reflexivity | reflexivity | right; reflexivity].
  - destruct (cmd_checks_in_order open_env example_node plain_URL example_os
                (get "/cmd?command=reboot" []) (cmd_url "reboot"))
      as (_ & _ & _ & Hregistry & _).
    apply (Hregistry "reboot");
      [reflexivity | reflexivity | reflexivity | discriminate | reflexivity].
  - destruct (cmd_checks_in_order secret_env example_node plain_URL example_os
                (post "/cmd") {| pathname := "/cmd"; searchParams := [] |})
      as (_ & _ & _ & _ & Hserve).
    destruct (Hserve eq_refl eq_refl) as [Hpost _].
    rewrite (Hpost eq_refl eq_refl). reflexivity.
  - destruct (cmd_checks_in_order secret_env example_node plain_URL example_os
                (get "/cmd" []) {| pathname := "/cmd"; searchParams := [] |})
      as (_ & _ & _ & _ & Hserve).
    destruct (Hserve eq_refl eq_refl) as [_ Hget].
    rewrite (Hget eq_refl eq_refl eq_refl eq_refl). reflexivity.
Defined.

Lemma only_registry_commands_run_witness :
  let req := get "/cmd?command=Uptime" [] in
  res (serve open_env example_node plain_URL example_os req) =
    json_reply 403 (VObj [("error", VStr "Command not allowed")]) /\
  executed open_env example_node plain_URL example_os req = [].
Proof.
  intros req.
  apply (proj2 (only_registry_commands_run open_env example_node plain_URL example_os)
           req (cmd_url "Uptime") "Uptime"); try reflexivity.
  - discriminate.
  - not_listed.
Defined.

Lemma inherited_property_rejected_witness :
  let rejected target :=
    statusCode (res (serve open_env example_node plain_URL example_os (get target []))) = 403 /\
    executed open_env example_node plain_URL example_os (get target []) = [] in
  rejected "/cmd?command=toString" /\ rejected "/cmd?command=constructor" /\
  rejected "/cmd?command=hasOwnProperty" /\ rejected "/cmd?command=__proto__".
Proof.
  cbv zeta. split; [|split; [|split]].
  - destruct (inherited_property_rejected open_env example_node plain_URL example_os
                (get "/cmd?command=toString" []) (cmd_url "toString") "toString"
                eq_refl eq_refl eq_refl eq_refl eq_refl
                ltac:(eexists; vm_compute; reflexivity) eq_refl)
      as (_ & _ & _ & Hres & Hnone).
    split; [rewrite Hres; reflexivity | exact Hnone].
  - destruct (inherited_property_rejected open_env example_node plain_URL example_os
                (get "/cmd?command=constructor" []) (cmd_url "constructor") "constructor"
                eq_refl eq_refl eq_refl eq_refl eq_refl
                ltac:(eexists; vm_compute; reflexivity) eq_refl)
      as (_ & _ & _ & Hres & Hnone).
    split; [rewrite Hres; reflexivity | exact Hnone].
  - destruct (inherited_property_rejected open_env example_node plain_URL example_os
                (get "/cmd?command=hasOwnProperty" []) (cmd_url "hasOwnProperty") "hasOwnProperty"
                eq_refl eq_refl eq_refl eq_refl eq_refl
                ltac:(eexists; vm_compute; reflexivity) eq_refl)
      as (_ & _ & _ & Hres & Hnone).
    split; [rewrite Hres; reflexivity | exact Hnone].
  - destruct (inherited_property_rejected open_env example_node plain_URL example_os
                (get "/cmd?command=__proto__" []) (cmd_url "__proto__") "__proto__"
                eq_refl eq_refl eq_refl eq_refl eq_refl
                ltac:(eexists; vm_compute; reflexivity) eq_refl)
      as (_ & _ & _ & Hres & Hnone).
    split; [rewrite Hres; reflexivity | exact Hnone].
Defined.

Lemma failed_command_reply_witness :
  (let req := get "/cmd?command=memory" [("x-api-key", "secret")] in
   res (serve secret_env example_node plain_URL failing_os req) =
     json_reply 200
       (VObj [ ("command", VStr "memory"); ("allowed", VBool true);
               ("error", VStr ("Command failed: free -m" +:+ newline));
               ("exitCode", VNum 2); ("signal", VNull);
               ("stdout", VStr ""); ("stderr", VStr "") ]) /\
   field "exitCode" (body (res (serve secret_env example_node plain_URL failing_os req))) =
     Some (VNum 2)) /\
  (let req := get "/cmd?command=uptime" [] in
   field "signal" (body (res (serve open_env example_node plain_URL shot_os req))) =
     Some (VStr "SIGKILL")) /\
  (let req := get "/cmd?command=uptime" [] in
   field "signal" (body (res (serve open_env example_node plain_URL slow_os req))) =
     Some (VStr "SIGTERM")) /\
  (let req := get "/cmd?command=disk" [] in
   field "exitCode" (body (res (serve open_env example_node plain_URL flooding_os req))) =
     Some (VStr "ERR_CHILD_PROCESS_STDIO_MAXBUFFER")).
Proof.
  assert (forall chunks : list Chunk, chunks = [] ->
            writes_in_time exec_options chunks /\
            byteLength (written Stdout chunks) <= 1048576 /\
            byteLength (written Stderr chunks) <= 1048576) as Hquiet.
  { intros chunks ->. split; [constructor|]. split; unfold byteLength; cbn; lia. }
  split; [|split; [|split]]; intros req.
  - destruct (failed_command_reply secret_env example_node plain_URL failing_os
                req (cmd_url "memory") "memory" "free -m" (quick_child "" 2)
                eq_refl eq_refl eq_refl eq_refl eq_refl eq_refl eq_refl)
      as (Hreply & Hexit & _).
    split.
    + exact (proj1 (Hreply
               (command_failed "free -m" no_output (VNum 2) VNull (VBool false)) "" ""
               eq_refl)).
    + refine (proj1 (proj2 (Hexit _ 4 2%N eq_refl _ _ _ _ _))).
      * discriminate.
      * unfold writes_in_time. repeat constructor.
      * lia.
      * vm_compute. discriminate.
      * vm_compute. discriminate.
  - destruct (failed_command_reply open_env example_node plain_URL shot_os
                req (cmd_url "uptime") "uptime" "uptime" (Ran [] 3 (Signalled "SIGKILL"))
                eq_refl eq_refl eq_refl eq_refl eq_refl eq_refl eq_refl)
      as (_ & _ & Hshot & _).
    destruct (Hquiet [] eq_refl) as (Hin & Ho & He).
    refine (proj2 (proj2 (Hshot [] 3 "SIGKILL" eq_refl _ Hin _ Ho He))).
    + discriminate.
    + lia.
  - destruct (failed_command_reply open_env example_node plain_URL slow_os
                req (cmd_url "uptime") "uptime" "uptime" (Ran [] 6000 (Exited 0))
                eq_refl eq_refl eq_refl eq_refl eq_refl eq_refl eq_refl)
      as (_ & _ & _ & Hlate & _).
    destruct (Hquiet [] eq_refl) as (Hin & Ho & He).
    exact (proj2 (proj2 (Hlate [] [] 6000 (Exited 0) eq_refl Hin Ho He eq_refl))).
  - destruct (failed_command_reply open_env example_node plain_URL flooding_os
                req (cmd_url "disk") "disk" "df -h" flooding_child
                eq_refl eq_refl eq_refl eq_refl eq_refl eq_refl eq_refl)
      as (_ & _ & _ & _ & Hflood & _).
    refine (proj1 (proj2 (Hflood flooding_chunks [] 2 (Exited 0) eq_refl flooding_in_time _))).
    left. rewrite flooding_written, byteLength_flood. lia.
Defined.

Lemma successful_command_reply_witness :
  let req := get "/cmd?command=uptime" [] in
  field_names (body (res (serve open_env example_node plain_URL example_os req))) =
    ["command"; "allowed"; "stdout"; "stderr"] /\
  field "error" (body (res (serve open_env example_node plain_URL example_os req))) = None.
Proof.
  intros req.
  destruct (successful_command_reply open_env example_node plain_URL example_os
              req (cmd_url "uptime") "uptime" "uptime"
              (quick_child (" 10:00:00 up 1 day" +:+ newline) 0)
              (" 10:00:00 up 1 day" +:+ newline) ""
              eq_refl eq_refl eq_refl eq_refl eq_refl eq_refl eq_refl eq_refl)
    as (_ & Hnames & Herr & _).
  split; assumption.
Defined.


(** ** The further properties at concrete requests *)

Lemma home_page_served_witness :
  serve secret_env example_node plain_URL example_os (post "/index.html") =
  answered (reply 200 "text/html"
    (Html {| page_version := "v20.11.0"; page_port := VNum 80;
             page_platform := "linux"; page_uptime := 2 |})).
Proof.
  exact (proj1 (home_page_served secret_env example_node plain_URL example_os
                  (post "/index.html") {| pathname := "/index.html"; searchParams := [] |}
                  ltac:(discriminate) eq_refl (or_intror eq_refl))).
Defined.

Lemma health_served_witness :
  field_names (body (res (serve secret_env example_node plain_URL example_os
                            (post "/health")))) =
  ["status"; "timestamp"; "uptime_seconds"].
Proof.
  exact (proj2 (health_served secret_env example_node plain_URL example_os
                  (post "/health") {| pathname := "/health"; searchParams := [] |}
                  ltac:(discriminate) eq_refl eq_refl)).
Defined.

Lemma status_meaning_witness :
  method (post "/cmd") <> "GET" /\
  key_rejected secret_env (get "/cmd?command=uptime" [("x-api-key", "Secret")]) = true /\
  (exists u, plain_URL "/cmd/" (base (get "/cmd/" [])) = Normal u /\
             pathname u ∉ ["/"; "/index.html"; "/health"; "/cmd"]) /\
  (exists u, admitted open_env plain_URL (get "/cmd?command=" []) u) /\
  (exists u c, searchParams_get "command" (searchParams u) = Some c /\
               admitted open_env plain_URL (get "/cmd?command=df" []) u /\
               own ALLOWED_COMMANDS !! c = None) /\
  ((exists e, plain_URL "//" (base (get "//" [])) = Throw e) \/
   (exists u c cmd e,
      admitted open_env plain_URL (get "//" []) u /\
      searchParams_get "command" (searchParams u) = Some c /\
      own ALLOWED_COMMANDS !! c = Some (VStr cmd) /\
      example_os cmd = Throw e)).
Proof.
  split; [|split; [|split; [|split; [|split]]]].
  - destruct (status_meaning secret_env example_node plain_URL example_os (post "/cmd"))
      as (H405 & _).
    exact (proj1 (H405 eq_refl)).
  - destruct (status_meaning secret_env example_node plain_URL example_os
                (get "/cmd?command=uptime" [("x-api-key", "Secret")]))
      as (_ & H401 & _).
    destruct (H401 eq_refl) as (_ & _ & Hrej & _). exact Hrej.
  - destruct (status_meaning open_env example_node plain_URL example_os (get "/cmd/" []))
      as (_ & _ & H404 & _).
    exact (H404 eq_refl).
  - destruct (status_meaning open_env example_node plain_URL example_os
                (get "/cmd?command=" []))
      as (_ & _ & _ & H400 & _).
    destruct (H400 eq_refl) as (u & Hadm & _). exists u. exact Hadm.
  - destruct (status_meaning open_env example_node plain_URL example_os
                (get "/cmd?command=df" []))
      as (_ & _ & _ & _ & H403 & _).
    destruct (H403 eq_refl) as (u & c & Hadm & Hc & Hown). exists u, c. auto.
  - destruct (status_meaning open_env example_node plain_URL example_os (get "//" []))
      as (_ & _ & _ & _ & _ & H500).
    exact (H500 eq_refl).
Defined.

Lemma key_check_is_on_iff_witness :
  REQUIRE_API_KEY secret_env = true /\
  ADMIN_API_KEY secret_env <> "" /\
  key_rejected secret_env (get "/cmd" [("x-api-key", "")]) = true /\
  headers (get "/cmd" [("x-api-key", "secret")]) !! "x-api-key" =
    Some (ADMIN_API_KEY secret_env).
Proof.
  destruct (key_check_is_on_iff secret_env) as (Hset & Hkey & Hempty & Hpass).
  assert (REQUIRE_API_KEY secret_env = true) as Hon.
  { apply Hset. exists "secret". split; [reflexivity | discriminate]. }
  split; [exact Hon|]. split; [apply Hkey, Hon|]. split.
  - apply Hempty. right. reflexivity.
  - exact (proj2 (Hpass (get "/cmd" [("x-api-key", "secret")]) Hon eq_refl)).
Defined.

Lemma port_default_witness :
  PORT open_env = VNum 80 /\
  PORT {[ "PORT" := "" ]} = VNum 80 /\
  PORT {[ "PORT" := "0" ]} = VStr "0".
Proof.
  split; [|split].
  - apply (port_default open_env). left. reflexivity.
  - apply (port_default {[ "PORT" := "" ]}). right. reflexivity.
  - apply (proj1 (proj2 (port_default {[ "PORT" := "0" ]})) "0"); [reflexivity | discriminate].
Defined.

Lemma spawn_exception_is_500_witness :
  statusCode (res (serve open_env example_node plain_URL broken_os
                     (get "/cmd?command=memory" []))) = 500 /\
  map call_command (exec_calls (serve open_env example_node plain_URL broken_os
                                  (get "/cmd?command=memory" []))) = ["free -m"].
Proof.
  rewrite (spawn_exception_is_500 open_env example_node plain_URL broken_os
             (get "/cmd?command=memory" []) (cmd_url "memory") "memory" "free -m"
             {| exn_name := "Error"; exn_message := "spawn ENOMEM" |}
             eq_refl eq_refl eq_refl eq_refl eq_refl eq_refl eq_refl).
  split; reflexivity.
Defined.

Lemma command_field_names_a_key_witness :
  field "allowed" (body (res (serve open_env example_node plain_URL failing_os
                                (get "/cmd?command=disk" [])))) = Some (VBool true).
Proof.
  destruct (command_field_names_a_key open_env example_node plain_URL failing_os
              (get "/cmd?command=disk" []) (VStr "disk") eq_refl)
    as (_ & Hallowed & _).
  exact Hallowed.
Defined.
